(** * Disease-prediction glue scripts: training loop and INT8 quantization driver

    A shallow embedding of [src/utils/train.py] (function [train]) and of
    [src/run_quantize_inc.py] (functions [quantize_model], its inner
    [evaluate_accuracy], and [main]).

    Both scripts orchestrate third-party frameworks (torch, transformers,
    neural_compressor, sklearn, shutil).  The numerical work of those
    frameworks is opaque here: it is an interface ([Torch], [Collaborators])
    over which every definition and theorem is generic.  What the scripts
    themselves do -- the order of the calls, the bookkeeping of the loops, the
    conditions under which something is logged, saved, copied or abandoned --
    is translated statement by statement.

    Python floats are idealised as exact rationals plus a not-a-number value
    ([pyfloat]).  The only float comparisons of the code are of an accuracy
    k/n with the literals 0, 0.8 and 0.95; rounding is monotone, so the
    idealisation agrees with IEEE doubles for every n below 2^50. *)

From Stdlib Require Import QArith Lqa Ascii.
From stdpp Require Import base list strings gmap.

(** ** Python values *)

(** A Python float: a rational, or NaN (what [accuracy_score] yields on empty
    input where it takes the mean of an empty array; see [accuracy_score]). *)
Inductive pyfloat : Type :=
| NaN
| Fin (q : Q).

(** [a > b]; every comparison with NaN is false. *)
Definition fgt (a b : pyfloat) : bool :=
  match a, b with
  | Fin x, Fin y => negb (Qle_bool x y)
  | _, _ => false
  end.

(** [a < b]. *)
Definition flt (a b : pyfloat) : bool := fgt b a.

(** [a + b]. *)
Definition fadd (a b : pyfloat) : pyfloat :=
  match a, b with
  | Fin x, Fin y => Fin (x + y)
  | _, _ => NaN
  end.

(** [range(start, stop)]. *)
Definition range (start stop : Z) : list Z := seqZ start (stop - start).

(** Truthiness of an optional string such as [flags.save_model_dir]:
    [None] and the empty string are false. *)
Definition truthy (o : option string) : bool :=
  match o with
  | Some s => negb (String.eqb s EmptyString)
  | None => false
  end.

(** ** sklearn and torch helpers *)

(** [sklearn.metrics.accuracy_score(y_true, y_pred)]: the fraction of
    positions at which the two sequences agree.  sklearn rejects sequences of
    different lengths with a ValueError; both loops below extend the two
    lists by one entry per row of the batch, so the lengths agree whenever the
    model returns one row of logits per input row (lemma [rows_agree]).  On
    two empty sequences the releases of sklearn differ: the mean of an empty
    array, NaN, in the older ones, a ValueError in the current ones.  The
    function is total here, with NaN for the empty case; the sources pin no
    release, and what is stated below of a value of [accuracy_score] is
    meant for sequences that are not empty. *)
Definition accuracy_score (y_true y_pred : list Z) : pyfloat :=
  match y_true with
  | [] => NaN
  | _ :: _ =>
      Fin (Z.of_nat (length (List.filter (λ p, Z.eqb p.1 p.2) (zip y_true y_pred)))
           # Pos.of_nat (length y_true))
  end.

Fixpoint argmax_from (best : Q) (best_i i : Z) (row : list Q) : Z :=
  match row with
  | [] => best_i
  | x :: rest =>
      if Qle_bool x best
      then argmax_from best best_i (i + 1) rest
      else argmax_from x i (i + 1) rest
  end.

(** [row.argmax()]: index of the (first) largest entry. *)
Definition argmax (row : list Q) : Z :=
  match row with
  | [] => 0
  | x :: rest => argmax_from x 0 1 rest
  end.

(** A collated batch: the dict the loader yields, one row per sample. *)
Record batch : Type := Batch {
  input_ids : list (list Z);
  attention_mask : list (list Z);
  token_type_ids : list (list Z);
}.

(** What a sequence-classification model returns. *)
Record model_output : Type := ModelOutput {
  loss : pyfloat;
  logits : list (list Q);
}.

(** [out.logits.argmax(-1)]. *)
Definition predictions (out : model_output) : list Z := argmax <$> logits out.

(** The numerical framework, opaque.  [net] stands for everything the model
    and the optimizer hold: parameters, gradient buffers, optimizer moments.
    [forward] gets the mode of the model ([model.training]), whether autocast
    is active, the three input tensors and the labels when they are passed. *)
Class Torch : Type := {
  net : Type;
  forward : net → bool → bool →
            list (list Z) → list (list Z) → list (list Z) → option (list Z) →
            model_output;
  zero_grad : net → net;
  clip_grad_norm_ : pyfloat → net → net;
  backward : model_output → net → net;
  optimizer_step : net → net;
}.

(** ** train.py *)

Module Train.

(** Arguments of a logging call. *)
Inductive arg : Type :=
| AFloat (x : pyfloat)
| AInt (n : Z)
| AStr (s : string).

(** The statements of [train] that act on something outside their own
    expression, in the order they are executed. *)
Inductive event : Type :=
| WriterOpen (log_dir : string)
| ModelTrain
| ZeroGrad
| WithEnter (autocast_on : bool)
| WithExit
| Forward (training_mode autocast_on labels_given : bool)
| AddScalar (tag : string) (scalar_value : pyfloat) (global_step : Z)
| Extend (var : string) (items : list Z)
| ClipGradNorm (max_norm : pyfloat)
| Backward
| OptimizerStep
| AddTo (var : string) (x : pyfloat)
| LogInfo (fmt : string) (args : list arg)
| Mkdir (path : string)
| SaveTokenizer (path : string)
| SaveModel (path : string)
| WriterClose.

(** [flags]: the one attribute [train] reads. *)
Record Namespace : Type := { save_model_dir : option string }.

(** A loader, by the batches it yields when it is iterated during a given
    epoch (a shuffling loader yields another order each time). *)
Definition DataLoader : Type := Z → list (batch * list Z).

Section WithTorch.
Context `{Torch}.

(** The objects [train] mutates, and the trace of its effects (oldest first). *)
Record state : Type := State {
  model : net;
  training : bool;
  autocast : bool;
  trace : list event;
}.

Definition emit (e : event) (s : state) : state :=
  State (model s) (training s) (autocast s) (trace s ++ [e]).

Definition set_model (m : net) (s : state) : state :=
  State m (training s) (autocast s) (trace s).

Definition set_training (b : bool) (s : state) : state :=
  State (model s) b (autocast s) (trace s).

Definition set_autocast (b : bool) (s : state) : state :=
  State (model s) (training s) b (trace s).

(** Accumulators of the training phase of one epoch. *)
Record train_locals : Type := TrainLocals {
  running_loss : pyfloat;
  train_preds : list Z;
  train_labels : list Z;
}.

(** Lines 68-100: the body of the loop over [train_dataloader]. *)
Definition train_step (enable_bf16 : bool) (max_grad_norm : pyfloat) (epoch : Z)
    (acc : state * train_locals) (item : batch * list Z) : state * train_locals :=
  let '(s, loc) := acc in
  let '(b, labels) := item in
  let s := emit ZeroGrad (set_model (zero_grad (model s)) s) in
  let s := emit (WithEnter enable_bf16) (set_autocast enable_bf16 s) in
  let out := forward (model s) (training s) (autocast s)
               (input_ids b) (attention_mask b) (token_type_ids b) (Some labels) in
  let s := emit (Forward (training s) (autocast s) true) s in
  let s := emit (AddScalar "Loss/train" (loss out) epoch) s in
  let s := emit (Extend "train_preds" (predictions out)) s in
  let s := emit (Extend "train_labels" labels) s in
  let s := emit (ClipGradNorm max_grad_norm)
             (set_model (clip_grad_norm_ max_grad_norm (model s)) s) in
  let s := emit Backward (set_model (backward out (model s)) s) in
  let s := emit OptimizerStep (set_model (optimizer_step (model s)) s) in
  let s := emit (AddTo "running_loss" (loss out)) s in
  let s := emit WithExit (set_autocast false s) in
  (s, TrainLocals (fadd (running_loss loc) (loss out))
                  (train_preds loc ++ predictions out)
                  (train_labels loc ++ labels)).

(** Lines 107-117: the body of the loop over [val_dataloader]. *)
Definition val_step (enable_bf16 : bool)
    (acc : state * (list Z * list Z)) (item : batch * list Z)
    : state * (list Z * list Z) :=
  let '(s, (test_preds, test_labels)) := acc in
  let '(b, labels) := item in
  let s := emit (WithEnter enable_bf16) (set_autocast enable_bf16 s) in
  let pred := forward (model s) (training s) (autocast s)
                (input_ids b) (attention_mask b) (token_type_ids b) None in
  let s := emit (Forward (training s) (autocast s) false) s in
  let s := emit (Extend "test_preds" (predictions pred)) s in
  let s := emit (Extend "test_labels" labels) s in
  let s := emit WithExit (set_autocast false s) in
  (s, (test_preds ++ predictions pred, test_labels ++ labels)).

(** Lines 139-145: the block guarded by [flags.save_model_dir]. *)
Definition save_checkpoint (path : string) (epoch : Z) (s : state) : state :=
  let s := emit (Mkdir path) s in
  let s := emit (SaveTokenizer path) s in
  let s := emit (SaveModel path) s in
  let s := emit (LogInfo "Saved model files to %s" [AStr path]) s in
  emit (LogInfo "Saved model at epoch {epoch}" [AInt epoch]) s.

(** Lines 137-145. *)
Definition checkpoint (flags : Namespace) (epoch : Z) (testAcc acc : pyfloat)
    (s : state) : state :=
  if fgt testAcc acc && fgt testAcc (Fin 0.8) && flt testAcc (Fin 0.95) then
    match save_model_dir flags with
    | Some dir => if truthy (Some dir) then save_checkpoint dir epoch s else s
    | None => s
    end
  else s.

(** Lines 102-145: what an epoch does once [trainAcc] has been computed. *)
Definition epoch_tail (flags : Namespace) (enable_bf16 : bool)
    (val_dataloader : DataLoader) (epoch : Z)
    (trainAcc running_loss acc : pyfloat) (s : state) : state :=
  let s := emit (LogInfo "Epoch Train Accuracy %.4f" [AFloat acc]) s in
  let '(s, (test_preds, test_labels)) :=
    foldl (val_step enable_bf16) (s, ([], [])) (val_dataloader epoch) in
  let testAcc := accuracy_score test_preds test_labels in
  let s := emit (LogInfo "Test Accuracy %.4f" [AFloat testAcc]) s in
  let s := emit (LogInfo "Epoch %d, Loss %.4f" [AInt epoch; AFloat running_loss]) s in
  let s := emit (AddScalar "Accuracy/train" trainAcc epoch) s in
  let s := emit (AddScalar "Accuracy/test" testAcc epoch) s in
  checkpoint flags epoch testAcc acc s.

(** Lines 60-145: the body of the loop over the epochs.  The loop carries the
    objects and the variable [acc], which the body reads and hands on. *)
Definition epoch_body (flags : Namespace) (enable_bf16 : bool)
    (max_grad_norm : pyfloat) (train_dataloader val_dataloader : DataLoader)
    (st : state * pyfloat) (epoch : Z) : state * pyfloat :=
  let '(s, acc) := st in
  let '(s, loc) :=
    foldl (train_step enable_bf16 max_grad_norm epoch)
          (s, TrainLocals (Fin 0) [] []) (train_dataloader epoch) in
  let trainAcc := accuracy_score (train_preds loc) (train_labels loc) in
  (epoch_tail flags enable_bf16 val_dataloader epoch trainAcc (running_loss loc) acc s,
   acc).

(** The loop of line 59, started with [acc = 0] after [model.train()]. *)
Definition train_loop (flags : Namespace) (enable_bf16 : bool)
    (max_grad_norm : pyfloat) (train_dataloader val_dataloader : DataLoader)
    (epochs : list Z) (m : net) (mode : bool) : state * pyfloat :=
  let s := State m mode false [] in
  let s := emit (WriterOpen "tensorboard") s in
  let acc := Fin 0 in
  let s := emit ModelTrain (set_training true s) in
  foldl (epoch_body flags enable_bf16 max_grad_norm train_dataloader val_dataloader)
        (s, acc) epochs.

(** [train(tokenizer, train_dataloader, val_dataloader, model, optimizer,
    enable_bf16, flags, epochs, max_grad_norm)], run on a model that is in
    mode [mode] when it is passed in. *)
Definition train (train_dataloader val_dataloader : DataLoader) (m : net)
    (mode : bool) (enable_bf16 : bool) (flags : Namespace) (epochs : Z)
    (max_grad_norm : pyfloat) : state :=
  let '(s, _) :=
    train_loop flags enable_bf16 max_grad_norm train_dataloader val_dataloader
               (range 1 (epochs + 1)) m mode in
  emit WriterClose s.

End WithTorch.

(** *** Observations on a trace *)

(** The writer's entries: tag and step of every [add_scalar], in order. *)
Definition scalar_key (e : event) : option (string * Z) :=
  match e with
  | AddScalar tag _ step => Some (tag, step)
  | _ => None
  end.

(** The values written under one tag, with their steps. *)
Definition scalar_of (tag : string) (e : event) : option (pyfloat * Z) :=
  match e with
  | AddScalar t v step => if String.eqb t tag then Some (v, step) else None
  | _ => None
  end.

(** The steps of the entries written under one tag. *)
Definition scalar_step (tag : string) (e : event) : option Z :=
  snd <$> scalar_of tag e.

(** The records handed to the logger. *)
Definition log_record (e : event) : option (string * list arg) :=
  match e with
  | LogInfo fmt args => Some (fmt, args)
  | _ => None
  end.

(** The arguments of the "Epoch Train Accuracy" messages. *)
Definition train_accuracy_message (e : event) : option (list arg) :=
  match e with
  | LogInfo fmt args =>
      if String.eqb fmt "Epoch Train Accuracy %.4f" then Some args else None
  | _ => None
  end.

(** The statements of a training step, without the values they carry. *)
Inductive step_statement : Type :=
| ClearGradients
| ForwardPass (reduced_precision : bool)
| AccumulatePredictions
| ClipGradients (max_norm : pyfloat)
| BackwardPass
| ApplyOptimizer
| AccumulateLoss.

Definition step_statement_of (e : event) : option step_statement :=
  match e with
  | ZeroGrad => Some ClearGradients
  | Forward _ bf16 true => Some (ForwardPass bf16)
  | Extend var _ =>
      if String.eqb var "train_preds" then Some AccumulatePredictions else None
  | ClipGradNorm max_norm => Some (ClipGradients max_norm)
  | Backward => Some BackwardPass
  | OptimizerStep => Some ApplyOptimizer
  | AddTo var _ =>
      if String.eqb var "running_loss" then Some AccumulateLoss else None
  | _ => None
  end.

(** Progress through the phases: a forward pass of the training phase, a
    forward pass of the validation phase, the message that ends an epoch. *)
Inductive progress : Type :=
| TrainBatch
| ValBatch
| EpochDone (epoch : Z).

Definition progress_of (e : event) : option progress :=
  match e with
  | Forward _ _ true => Some TrainBatch
  | Forward _ _ false => Some ValBatch
  | LogInfo fmt (AInt epoch :: _) =>
      if String.eqb fmt "Epoch %d, Loss %.4f" then Some (EpochDone epoch) else None
  | _ => None
  end.

(** The mode of the model at each forward pass of the validation phase. *)
Definition val_forward_mode (e : event) : option bool :=
  match e with
  | Forward mode _ false => Some mode
  | _ => None
  end.

(** The mode of the model at each forward pass. *)
Definition forward_mode (e : event) : option bool :=
  match e with
  | Forward mode _ _ => Some mode
  | _ => None
  end.

(** The calls of [model.train()]. *)
Definition model_train_call (e : event) : option unit :=
  match e with
  | ModelTrain => Some ()
  | _ => None
  end.

(** What the checkpoint policy shows of itself: the validation accuracy
    written for an epoch, and the statements of a save. *)
Definition checkpoint_event (e : event) : bool :=
  match e with
  | AddScalar tag _ _ => String.eqb tag "Accuracy/test"
  | Mkdir _ | SaveTokenizer _ | SaveModel _ => true
  | LogInfo fmt _ =>
      String.eqb fmt "Saved model files to %s"
      || String.eqb fmt "Saved model at epoch {epoch}"
  | _ => false
  end.

Definition checkpoint_view (e : event) : option event :=
  if checkpoint_event e then Some e else None.

(** The statements of the checkpoint-save step, lines 139-145. *)
Definition save_events (dir : string) (epoch : Z) : list event :=
  [Mkdir dir; SaveTokenizer dir; SaveModel dir;
   LogInfo "Saved model files to %s" [AStr dir];
   LogInfo "Saved model at epoch {epoch}" [AInt epoch]].

(** *** The shape of a trace

    The values a run computes on the way (model outputs, accuracies, the
    summed loss) depend on the opaque framework; the statements that carry
    them do not.  The following lists give the statements of each part of the
    code for given values. *)

(** One training step, for the output of its forward pass and its labels. *)
Definition step_events (mode bf16 : bool) (max_grad_norm : pyfloat) (epoch : Z)
    (x : model_output * list Z) : list event :=
  [ZeroGrad; WithEnter bf16; Forward mode bf16 true;
   AddScalar "Loss/train" (loss x.1) epoch;
   Extend "train_preds" (predictions x.1); Extend "train_labels" x.2;
   ClipGradNorm max_grad_norm; Backward; OptimizerStep;
   AddTo "running_loss" (loss x.1); WithExit].

(** One validation step. *)
Definition val_events (mode bf16 : bool) (x : model_output * list Z) : list event :=
  [WithEnter bf16; Forward mode bf16 false;
   Extend "test_preds" (predictions x.1); Extend "test_labels" x.2; WithExit].

(** The values of one epoch. *)
Record epoch_values : Type := EpochValues {
  ev_train : list (model_output * list Z);
  ev_val : list (model_output * list Z);
  ev_trainAcc : pyfloat;
  ev_testAcc : pyfloat;
  ev_loss : pyfloat;
}.

Definition checkpoint_events (flags : Namespace) (epoch : Z) (testAcc acc : pyfloat)
    : list event :=
  if fgt testAcc acc && fgt testAcc (Fin 0.8) && flt testAcc (Fin 0.95) then
    match save_model_dir flags with
    | Some dir => if truthy (Some dir) then save_events dir epoch else []
    | None => []
    end
  else [].

Definition epoch_events (flags : Namespace) (mode bf16 : bool)
    (max_grad_norm acc : pyfloat) (er : Z * epoch_values) : list event :=
  let '(epoch, r) := er in
  flat_map (step_events mode bf16 max_grad_norm epoch) (ev_train r) ++
  [LogInfo "Epoch Train Accuracy %.4f" [AFloat acc]] ++
  flat_map (val_events mode bf16) (ev_val r) ++
  [LogInfo "Test Accuracy %.4f" [AFloat (ev_testAcc r)];
   LogInfo "Epoch %d, Loss %.4f" [AInt epoch; AFloat (ev_loss r)];
   AddScalar "Accuracy/train" (ev_trainAcc r) epoch;
   AddScalar "Accuracy/test" (ev_testAcc r) epoch] ++
  checkpoint_events flags epoch (ev_testAcc r) acc.

(** The values of an epoch are those of one pass over each loader. *)
Definition fits (train_dataloader val_dataloader : DataLoader)
    (er : Z * epoch_values) : Prop :=
  length (ev_train er.2) = length (train_dataloader er.1) ∧
  length (ev_val er.2) = length (val_dataloader er.1).

(** Validation accuracy strictly between 0.80 and 0.95. *)
Definition in_band (v : pyfloat) : bool := fgt v (Fin 0.8) && flt v (Fin 0.95).

(** *** Further observations *)

(** The statements of a save. *)
Definition save_statement (e : event) : option event :=
  match e with
  | Mkdir _ | SaveTokenizer _ | SaveModel _ => Some e
  | LogInfo fmt _ =>
      if String.eqb fmt "Saved model files to %s"
         || String.eqb fmt "Saved model at epoch {epoch}"
      then Some e else None
  | _ => None
  end.

(** The loss as it is reported: per batch to the writer, per epoch to the
    logger. *)
Inductive loss_record : Type :=
| BatchLoss (v : pyfloat) (global_step : Z)
| EpochLoss (epoch : Z) (v : pyfloat).

Definition loss_view (e : event) : option loss_record :=
  match e with
  | AddScalar tag v step =>
      if String.eqb tag "Loss/train" then Some (BatchLoss v step) else None
  | LogInfo fmt [AInt epoch; AFloat v] =>
      if String.eqb fmt "Epoch %d, Loss %.4f" then Some (EpochLoss epoch v) else None
  | _ => None
  end.

(** The rows accumulated for the accuracies, and the accuracies written. *)
Inductive accuracy_record : Type :=
| Rows (var : string) (items : list Z)
| Accuracy (tag : string) (v : pyfloat).

Definition accuracy_view (e : event) : option accuracy_record :=
  match e with
  | Extend var items => Some (Rows var items)
  | AddScalar tag v _ =>
      if String.eqb tag "Loss/train" then None else Some (Accuracy tag v)
  | _ => None
  end.

(** Everything but the calls of [clip_grad_norm_]. *)
Definition unless_clip (e : event) : option event :=
  match e with
  | ClipGradNorm _ => None
  | _ => Some e
  end.

(** What the accumulators of a phase hold after batches with the given
    outputs and labels. *)
Definition summed_loss (xs : list (model_output * list Z)) : pyfloat :=
  foldl fadd (Fin 0) ((λ x, loss x.1) <$> xs).

Definition all_preds (xs : list (model_output * list Z)) : list Z :=
  flat_map (λ x, predictions x.1) xs.

Definition all_labels (xs : list (model_output * list Z)) : list Z :=
  flat_map snd xs.

(** The values of an epoch are those its accumulators give. *)
Definition coherent (er : Z * epoch_values) : Prop :=
  ev_loss er.2 = summed_loss (ev_train er.2) ∧
  ev_trainAcc er.2 =
    accuracy_score (all_preds (ev_train er.2)) (all_labels (ev_train er.2)) ∧
  ev_testAcc er.2 =
    accuracy_score (all_preds (ev_val er.2)) (all_labels (ev_val er.2)).

End Train.

(** ** run_quantize_inc.py *)

Module Quantize.

(** Modelled from the spec: the records that
    [utils.process_data.read_and_preprocess_data] produces (that module is not
    among the sources): input token ids, an attention mask, a token-type-id
    sequence, a scalar label and an auxiliary class label. *)
Record sample : Type := Sample {
  s_input_ids : list Z;
  s_attention_mask : list Z;
  s_token_type_ids : list Z;
  s_label : Z;
  s_class_label : Z;
}.

(** A raised exception: the name of its class, its message, and the names of
    the classes its class inherits from (the rest of its method resolution
    order). *)
Record exception : Type := MkException {
  exc_type : string;
  exc_msg : string;
  exc_bases : list string;
}.

(** An exception the runtime or a library raises with a builtin class, such
    as [ValueError(msg)]; the driver tells such classes apart by their name
    only, and the bases of a builtin class are left out. *)
Definition Exception (type msg : string) : exception := MkException type msg [].

Inductive result (A : Type) : Type :=
| Ok (a : A)
| Raise (e : exception).
Arguments Ok {A} a.
Arguments Raise {A} e.

(** What [except FileNotFoundError] catches: an instance of the class or of
    any class that inherits from it. *)
Definition is_FileNotFoundError (e : exception) : bool :=
  String.eqb (exc_type e) "FileNotFoundError" ||
  existsb (String.eqb "FileNotFoundError") (exc_bases e).

(** A directory, by the files it holds (relative path, as its components, to
    contents), and the directories of the file system by the path the flags
    name them with.  Two paths stand for two separate directories
    ([separate] below). *)
Abbreviation directory := (gmap (list string) string).
Abbreviation filesystem := (gmap string directory).

(** [fnmatch.fnmatch(name, pat)] on POSIX for patterns of literal characters,
    [*] and [?] (no bracket expression). *)
Fixpoint glob (pat : list Ascii.ascii) : list Ascii.ascii → bool :=
  match pat with
  | [] => λ name, match name with [] => true | _ :: _ => false end
  | c :: pat' =>
      if Ascii.eqb c "*"%char then
        fix star (name : list Ascii.ascii) : bool :=
          glob pat' name ||
          match name with [] => false | _ :: name' => star name' end
      else if Ascii.eqb c "?"%char then
        λ name, match name with [] => false | _ :: name' => glob pat' name' end
      else
        λ name, match name with
                | [] => false
                | d :: name' => Ascii.eqb c d && glob pat' name'
                end
  end.

Definition fnmatch (name pat : string) : bool :=
  glob (String.list_ascii_of_string pat) (String.list_ascii_of_string name).

(** [shutil.ignore_patterns(pat)]: the names of a directory listing to skip. *)
Definition ignore_patterns (pat : string) (name : string) : bool := fnmatch name pat.

(** [copytree] lists every directory it visits and skips the ignored names,
    files and directories alike: a file is copied when no component of its
    path is ignored. *)
Definition kept (ignore : string → bool) (path : list string) : bool :=
  negb (existsb ignore path).

(** The components of a path as [os.path.normpath] leaves them: the parts
    between the separators, without the empty ones and without ".". *)
Fixpoint split_path (cur : string) (path : string) : list string :=
  match path with
  | EmptyString => [cur]
  | String c path' =>
      if Ascii.eqb c "/"%char then cur :: split_path EmptyString path'
      else split_path (cur +:+ String c EmptyString) path'
  end.

Definition components (path : string) : list string :=
  List.filter (λ x, negb (String.eqb x EmptyString) && negb (String.eqb x "."))
              (split_path EmptyString path).

Definition absolute (path : string) : bool :=
  match path with
  | String c _ => Ascii.eqb c "/"%char
  | EmptyString => false
  end.

(** Two paths that name separate directories of a POSIX file system without
    symbolic links: both relative to the working directory or both absolute,
    neither with a ".." component, and neither leading to the other's
    directory or into it.  This is the case the map [filesystem] stands for:
    what is written under one of the paths leaves what the other holds as it
    is. *)
Definition separate (a b : string) : bool :=
  Bool.eqb (absolute a) (absolute b) &&
  negb (bool_decide (".." ∈ components a)) &&
  negb (bool_decide (".." ∈ components b)) &&
  negb (bool_decide (components a `prefix_of` components b)) &&
  negb (bool_decide (components b `prefix_of` components a)).

(** Two relative paths clash when one of them leads through the other: a
    file cannot be written where a directory stands, nor below a file. *)
Definition clash (p q : list string) : bool :=
  negb (bool_decide (p = q)) &&
  (bool_decide (p `prefix_of` q) || bool_decide (q `prefix_of` p)).

(** The files to copy and the files of the destination can stand in one
    directory tree. *)
Definition compatible (copied out : directory) : bool :=
  bool_decide (map_Forall (λ p _, map_Forall (λ q _, clash p q = false) out) copied).

(** [torch.utils.data.DataLoader]. *)
Record DataLoader : Type := MkDataLoader {
  dl_dataset : list sample;
  dl_batch_size : Z;
  dl_shuffle : bool;
}.

(** [DataLoader(dataset, batch_size=..., shuffle=...)].  With [shuffle] the
    loader builds a RandomSampler, which rejects an empty data source; the
    BatchSampler built next rejects a batch size that is not positive. *)
Definition new_DataLoader (dataset : list sample) (batch_size : Z) (shuffle : bool)
    : result DataLoader :=
  if shuffle && bool_decide (dataset = []) then
    Raise (Exception "ValueError"
      "num_samples should be a positive integer value, but got num_samples=0")
  else if bool_decide (batch_size ≤ 0)%Z then
    Raise (Exception "ValueError" "batch_size should be a positive integer value")
  else Ok (MkDataLoader dataset batch_size shuffle).

(** The BatchSampler: fill a batch with the samples in turn, yield it when it
    holds [batch_size] of them, and yield what is left at the end. *)
Fixpoint batch_sampler (batch_size : nat) (cur : list sample) (rest : list sample)
    : list (list sample) :=
  match rest with
  | [] => match cur with [] => [] | _ :: _ => [cur] end
  | x :: rest' =>
      if (length (cur ++ [x]) =? batch_size)%nat
      then (cur ++ [x]) :: batch_sampler batch_size [] rest'
      else batch_sampler batch_size (cur ++ [x]) rest'
  end.

(** The default collate function: the rows of a batch, and their labels. *)
Definition collate (chunk : list sample) : batch * list Z :=
  (Batch (s_input_ids <$> chunk) (s_attention_mask <$> chunk)
         (s_token_type_ids <$> chunk),
   s_label <$> chunk).

(** One iteration over a loader; [order] is the order the sampler draws for
    it when the loader shuffles. *)
Definition iterate (order : list sample → list sample) (dl : DataLoader)
    : list (batch * list Z) :=
  collate <$> batch_sampler (Z.to_nat (dl_batch_size dl)) []
                (if dl_shuffle dl then order (dl_dataset dl) else dl_dataset dl).

(** Command-line flags. *)
Record Flags : Type := {
  input_file : string;
  batch_size : Z;
  saved_model_dir : string;
  output_dir : string;
  seq_length : Z;
}.

Inductive log_record : Type :=
| LogError (msg : string) (args : list string)
| LogException (e : exception).

(** The collaborators of the driver, opaque.  [Model] is a torch module: the
    loaded model, or a candidate the fit hands to the evaluation function.
    The loaders read the file system; the fit (which writes its intermediate
    files to the workspace) and the save of its result may change it. *)
Class Collaborators : Type := {
  Tokenizer : Type;
  Model : Type;
  QuantizedModel : Type;
  model_call : Model → list (list Z) → list (list Z) → list (list Z) → model_output;
  sampler_order : list sample → list sample;
  AutoTokenizer_from_pretrained : filesystem → string → result Tokenizer;
  read_and_preprocess_data :
    filesystem → string → Tokenizer → Z → result (list sample);
  AutoModel_from_pretrained : filesystem → string → result Model;
  quantization_fit :
    Model → DataLoader → (Model → pyfloat) → option string → filesystem →
    result QuantizedModel * filesystem;
  quantized_model_save :
    QuantizedModel → string → filesystem → result unit * filesystem;
}.

Section WithCollaborators.
Context `{Collaborators}.

(** What the driver acts on: the file system, neural_compressor's workspace
    setting, and the records handed to the root logger. *)
Record world : Type := World {
  fs : filesystem;
  workspace : option string;
  log : list log_record;
}.

(** A computation of the driver: it may change the world, and it returns or
    raises. *)
Definition prog (A : Type) : Type := world → result A * world.

Definition ret {A} (a : A) : prog A := λ w, (Ok a, w).

Definition bind {A B} (c : prog A) (k : A → prog B) : prog B :=
  λ w, match c w with
       | (Ok a, w') => k a w'
       | (Raise e, w') => (Raise e, w')
       end.

Notation "x <- c ;; k" := (bind c (λ x, k))
  (at level 100, c at next level, right associativity).
Notation "c ;;; k" := (bind c (λ _, k))
  (at level 100, right associativity).

(** A call that only reads the file system. *)
Definition reading {A} (f : filesystem → result A) : prog A := λ w, (f (fs w), w).

(** A call that may write to it. *)
Definition writing {A} (f : filesystem → result A * filesystem) : prog A :=
  λ w, let '(r, fs') := f (fs w) in (r, World fs' (workspace w) (log w)).

(** [try: body  except FileNotFoundError as exc: ...]: the caught exception is
    handed to the handler as [inr exc]. *)
Definition try_FileNotFoundError {A} (body : prog A) : prog (A + exception) :=
  λ w, match body w with
       | (Ok a, w') => (Ok (inl a), w')
       | (Raise e, w') =>
           if is_FileNotFoundError e then (Ok (inr e), w') else (Raise e, w')
       end.

Definition logger_error (msg : string) (args : list string) : prog unit :=
  λ w, (Ok (), World (fs w) (workspace w) (log w ++ [LogError msg args])).

(** [logger.error(exc, exc_info=True)]. *)
Definition logger_error_exc_info (exc : exception) : prog unit :=
  λ w, (Ok (), World (fs w) (workspace w) (log w ++ [LogException exc])).

Definition set_workspace (dir : string) : prog unit :=
  λ w, (Ok (), World (fs w) (Some dir) (log w)).

(** [os.path.exists(dir)]. *)
Definition dir_exists (dir : string) : prog bool :=
  λ w, (Ok (bool_decide (is_Some (fs w !! dir))), w).

(** [os.path.exists(os.path.join(dir, name))]: a file of that name, or a
    directory of that name that holds files. *)
Definition has_entry (name : string) (d : directory) : bool :=
  bool_decide (map_Exists (λ p _, head p = Some name) d).

Definition path_has_entry (files : filesystem) (dir name : string) : bool :=
  match files !! dir with
  | Some d => has_entry name d
  | None => false
  end.

Definition entry_exists (dir name : string) : prog bool :=
  λ w, (Ok (path_has_entry (fs w) dir name), w).

(** [shutil.copytree(src, dst, ignore=..., dirs_exist_ok=True)]: every file of
    [src] that is not ignored is written to the same relative path of [dst],
    over what [dst] holds there.  A missing [src] raises; copying a directory
    onto itself raises for the first file it would copy.

    The definition follows the copy between two directories that are
    [separate] and whose files are [compatible].  The copy of shutil goes
    through the files one by one and raises at the end for those it could not
    write, with the others written; between two paths of one directory, or
    into a directory inside the source, what it writes changes what it reads.
    Those runs are not followed here: what is stated of the result of a copy
    at large is stated under the two conditions. *)
Definition copytree (src dst : string) (ignore : string → bool) : prog unit :=
  λ w, match fs w !! src with
       | None => (Raise (Exception "FileNotFoundError" src), w)
       | Some files =>
           let copied := filter (λ kv, kept ignore kv.1 = true) files in
           if decide (src = dst) then
             if decide (copied = ∅) then (Ok (), w)
             else (Raise (Exception "Error" "are the same file"), w)
           else
             (Ok (),
              World (<[dst := copied ∪ default ∅ (fs w !! dst)]> (fs w))
                    (workspace w) (log w))
       end.

(** Lines 61-72: the loop of [evaluate_accuracy]. *)
Definition evaluate_step (model_q : Model) (acc : list Z * list Z)
    (item : batch * list Z) : list Z * list Z :=
  let '(test_preds, test_labels) := acc in
  let '(b, labels) := item in
  let pred := model_call model_q (input_ids b) (attention_mask b) (token_type_ids b) in
  (test_preds ++ predictions pred, test_labels ++ labels).

Definition evaluate_loop (test_loader : DataLoader) (model_q : Model)
    : list Z * list Z :=
  foldl (evaluate_step model_q) ([], []) (iterate sampler_order test_loader).

(** Lines 60-74. *)
Definition evaluate_accuracy (test_loader : DataLoader) (model_q : Model) : pyfloat :=
  let '(test_preds, test_labels) := evaluate_loop test_loader model_q in
  accuracy_score test_preds test_labels.

(** Lines 51-85; the fit runs with the default [PostTrainingQuantConfig()]. *)
Definition quantize_model (model : Model) (test_loader : DataLoader) (flags : Flags)
    : prog QuantizedModel :=
  set_workspace (output_dir flags) ;;;
  λ w, writing (quantization_fit model test_loader (evaluate_accuracy test_loader)
                                 (workspace w)) w.

(** Lines 123-130. *)
Definition copy_model_files (flags : Flags) : prog unit :=
  found <- entry_exists (output_dir flags) "best_model.pt" ;;
  if found then
    copytree (saved_model_dir flags) (output_dir flags) (ignore_patterns "*.bin*")
  else ret ().

(** Lines 88-130.  [logging.basicConfig] and [logging.getLogger] set up the
    logger the records go to. *)
Definition main (flags : Flags) : prog unit :=
  found <- dir_exists (saved_model_dir flags) ;;
  if negb found then
    logger_error "Saved model %s not found!" [saved_model_dir flags]
  else
    tokenizer <- reading (λ fs,
      AutoTokenizer_from_pretrained fs (saved_model_dir flags)) ;;
    loaded <- try_FileNotFoundError (
      test_dataset <- reading (λ fs,
        read_and_preprocess_data fs (input_file flags) tokenizer (seq_length flags)) ;;
      λ w, (new_DataLoader test_dataset (batch_size flags) true, w)) ;;
    match loaded with
    | inr exc =>
        logger_error "Please follow instructions to download data." [] ;;;
        logger_error_exc_info exc
    | inl test_loader =>
        model <- reading (λ fs,
          AutoModel_from_pretrained fs (saved_model_dir flags)) ;;
        quantized_model <- quantize_model model test_loader flags ;;
        writing (λ fs,
          quantized_model_save quantized_model (output_dir flags) fs) ;;;
        copy_model_files flags
    end.

End WithCollaborators.

(** *** INCDataset (lines 27-48) *)

(** What [INCDataset] wraps, by its [__getitem__] and [__len__]; an item is a
    dict from keys to values of some type [V]. *)
Record Indexable (V : Type) : Type := {
  py_getitem : Z → result (gmap string V);
  py_len : Z;
}.
Arguments py_getitem {V} _ _.
Arguments py_len {V} _.

Record INCDataset (V : Type) : Type := {
  dloader : Indexable V;
  n_elements : option Z;
}.
Arguments dloader {V} _.
Arguments n_elements {V} _.

(** [item[key]] on a dict. *)
Definition dict_getitem {V} (item : gmap string V) (key : string) : result V :=
  match item !! key with
  | Some v => Ok v
  | None => Raise (Exception "KeyError" key)
  end.

Definition result_bind {A B} (r : result A) (k : A → result B) : result B :=
  match r with
  | Ok a => k a
  | Raise e => Raise e
  end.

(** [INCDataset.__getitem__], lines 34-43. *)
Definition INCDataset_getitem {V} (self : INCDataset V) (index : Z)
    : result (gmap string V * (V * V)) :=
  result_bind (py_getitem (dloader self) index) (λ item,
  result_bind (dict_getitem item "input_ids") (λ ids,
  result_bind (dict_getitem item "attention_mask") (λ mask,
  let x_vals : gmap string V := <["input_ids" := ids]> (<["attention_mask" := mask]> ∅) in
  result_bind (dict_getitem item "labels") (λ labels,
  result_bind (dict_getitem item "class_label") (λ class_label,
  let y_vals := (labels, class_label) in
  Ok (x_vals, y_vals)))))).

(** [INCDataset.__len__], lines 45-48. *)
Definition INCDataset_len {V} (self : INCDataset V) : Z :=
  match n_elements self with
  | None => py_len (dloader self)
  | Some n => n
  end.

End Quantize.

(** ** A small concrete framework, for examples *)

(** A model without parameters: it predicts class 1 for a row whose first
    token is 1 and class 0 otherwise, and reports the loss 1/2. *)
Definition toy_logits (row : list Z) : list Q :=
  match row with
  | 1%Z :: _ => [0%Q; 1%Q]
  | _ => [1%Q; 0%Q]
  end.

Definition toy_torch : Torch := {|
  net := unit;
  forward := λ _ _ _ ids _ _ _, ModelOutput (Fin (1 # 2)) (toy_logits <$> ids);
  zero_grad := λ m, m;
  clip_grad_norm_ := λ _ m, m;
  backward := λ _ m, m;
  optimizer_step := λ m, m;
|}.

(** A batch of rows that hold one token each. *)
Definition toy_batch (tokens : list Z) : batch :=
  Batch ((λ t, [t]) <$> tokens) ((λ _, [1%Z]) <$> tokens) ((λ _, [0%Z]) <$> tokens).

(** A loader of two batches of one row each, and one of a single batch. *)
Definition two_batches : Train.DataLoader :=
  λ _, [(toy_batch [1%Z], [1%Z]); (toy_batch [0%Z], [0%Z])].

Definition one_batch : Train.DataLoader :=
  λ _, [(toy_batch [1%Z], [1%Z])].

(** A validation loader of one batch of ten rows, nine of them labelled as
    the toy model predicts. *)
Definition nine_of_ten : Train.DataLoader :=
  λ _, [(toy_batch [1; 1; 1; 1; 1; 0; 0; 0; 0; 0]%Z,
         [1; 1; 1; 1; 1; 0; 0; 0; 0; 1]%Z)].

(** Collaborators for examples: the toy model; a sampler that draws the
    samples in reverse; loaders that succeed when what they load exists (the
    only data file is "data.csv"); a fit that writes nothing; a save that
    writes "best_model.pt". *)
Definition toy_sample (token label : Z) : Quantize.sample :=
  Quantize.Sample [token] [1%Z] [0%Z] label label.

Definition toy_collaborators : Quantize.Collaborators := {|
  Quantize.Tokenizer := unit;
  Quantize.Model := unit;
  Quantize.QuantizedModel := unit;
  Quantize.model_call := λ _ ids _ _, ModelOutput NaN (toy_logits <$> ids);
  Quantize.sampler_order := reverse;
  Quantize.AutoTokenizer_from_pretrained := λ files dir,
    if bool_decide (is_Some (files !! dir)) then Quantize.Ok ()
    else Quantize.Raise (Quantize.Exception "OSError" dir);
  Quantize.read_and_preprocess_data := λ files file _ _,
    if String.eqb file "data.csv"
    then Quantize.Ok [toy_sample 1 1; toy_sample 0 0; toy_sample 1 0]
    else Quantize.Raise (Quantize.Exception "FileNotFoundError" file);
  Quantize.AutoModel_from_pretrained := λ files dir,
    if bool_decide (is_Some (files !! dir)) then Quantize.Ok ()
    else Quantize.Raise (Quantize.Exception "OSError" dir);
  Quantize.quantization_fit := λ _ _ _ _ files, (Quantize.Ok (), files);
  Quantize.quantized_model_save := λ _ dir files,
    (Quantize.Ok (),
     <[dir := <[["best_model.pt"] := "int8 weights"]> (default ∅ (files !! dir))]> files);
|}.

(** A saved model directory "model", as [save_pretrained] leaves it. *)
Definition toy_files : gmap string (gmap (list string) string) :=
  {[ "model" := {[ ["config.json"] := "config";
                   ["pytorch_model.bin"] := "float weights";
                   ["vocab.txt"] := "vocabulary" ]} ]}.

Definition toy_flags (data : string) : Quantize.Flags := {|
  Quantize.input_file := data;
  Quantize.batch_size := 2;
  Quantize.saved_model_dir := "model";
  Quantize.output_dir := "out";
  Quantize.seq_length := 512;
|}.



(** ** Theorems about train.py *)

Section TrainTheorems.
Import Train.
Context `{Torch}.

(** *** List facts *)

Lemma omap_flat_map {A B C} (φ : B → option C) (f : A → list B) (l : list A) :
  omap φ (flat_map f l) = flat_map (λ x, omap φ (f x)) l.
Proof.
  induction l as [|x l IH]; [done|].
  cbn [flat_map]. by rewrite omap_app, IH.
Qed.

Lemma flat_map_Forall_ext {A B} (f g : A → list B) (l : list A) :
  Forall (λ x, f x = g x) l → flat_map f l = flat_map g l.
Proof.
  induction 1 as [|x l Hx _ IH]; [done|].
  cbn [flat_map]. by rewrite Hx, IH.
Qed.

Lemma flat_map_fst {A B C} (f : A → list C) (l : list (A * B)) :
  flat_map (λ x, f x.1) l = flat_map f (l.*1).
Proof.
  induction l as [|x l IH]; [done|].
  cbn [flat_map fmap list_fmap]. by rewrite IH.
Qed.

Lemma flat_map_replicate {A B} (c : list B) (l : list A) :
  flat_map (λ _, c) l = concat (replicate (length l) c).
Proof. induction l as [|x l IH]; [done|]. cbn. by rewrite IH. Qed.

Lemma flat_map_singleton_replicate {A B} (c : B) (l : list A) :
  flat_map (λ _, [c]) l = replicate (length l) c.
Proof. induction l as [|x l IH]; [done|]. cbn. by rewrite IH. Qed.

Lemma flat_map_nil_const {A B} (l : list A) : flat_map (λ _, @nil B) l = [].
Proof. by induction l. Qed.

(** *** The trace of each part of [train] *)

Lemma train_step_trace bf16 mgn e (s : state) loc item :
  ∃ x, let r := train_step bf16 mgn e (s, loc) item in
    trace r.1 = trace s ++ step_events (training s) bf16 mgn e x ∧
    training r.1 = training s.
Proof.
  destruct item as [b labels].
  eexists (_, labels). cbn. split; [|done].
  by rewrite <- !app_assoc.
Qed.

Lemma train_phase_trace bf16 mgn e batches : ∀ (s : state) loc,
  ∃ xs, let r := foldl (train_step bf16 mgn e) (s, loc) batches in
    length xs = length batches ∧
    trace r.1 = trace s ++ flat_map (step_events (training s) bf16 mgn e) xs ∧
    training r.1 = training s.
Proof.
  induction batches as [|item batches IH]; intros s loc.
  - exists []. cbn. by rewrite app_nil_r.
  - destruct (train_step_trace bf16 mgn e s loc item) as (x & Htr & Hmode).
    cbn zeta in Htr, Hmode.
    destruct (train_step bf16 mgn e (s, loc) item) as [s1 loc1] eqn:Hstep.
    destruct (IH s1 loc1) as (xs & Hlen & Htr' & Hmode').
    exists (x :: xs). cbn [foldl]. rewrite Hstep. cbn zeta in *. cbn [fst] in *.
    split; [cbn; by rewrite Hlen|]. split; [|congruence].
    rewrite Htr', Htr, Hmode. cbn [flat_map]. by rewrite <- app_assoc.
Qed.

Lemma val_step_trace bf16 (s : state) acc item :
  ∃ x, let r := val_step bf16 (s, acc) item in
    trace r.1 = trace s ++ val_events (training s) bf16 x ∧
    training r.1 = training s.
Proof.
  destruct item as [b labels], acc as [ps ls].
  eexists (_, labels). cbn. split; [|done].
  by rewrite <- !app_assoc.
Qed.

Lemma val_phase_trace bf16 batches : ∀ (s : state) acc,
  ∃ xs, let r := foldl (val_step bf16) (s, acc) batches in
    length xs = length batches ∧
    trace r.1 = trace s ++ flat_map (val_events (training s) bf16) xs ∧
    training r.1 = training s.
Proof.
  induction batches as [|item batches IH]; intros s acc.
  - exists []. cbn. by rewrite app_nil_r.
  - destruct (val_step_trace bf16 s acc item) as (x & Htr & Hmode).
    cbn zeta in Htr, Hmode.
    destruct (val_step bf16 (s, acc) item) as [s1 acc1] eqn:Hstep.
    destruct (IH s1 acc1) as (xs & Hlen & Htr' & Hmode').
    exists (x :: xs). cbn [foldl]. rewrite Hstep. cbn zeta in *. cbn [fst] in *.
    split; [cbn; by rewrite Hlen|]. split; [|congruence].
    rewrite Htr', Htr, Hmode. cbn [flat_map]. by rewrite <- app_assoc.
Qed.

Lemma checkpoint_trace flags e v acc (s : state) :
  trace (checkpoint flags e v acc s) = trace s ++ checkpoint_events flags e v acc ∧
  training (checkpoint flags e v acc s) = training s.
Proof.
  unfold checkpoint, checkpoint_events.
  destruct (fgt v acc && fgt v (Fin 0.8) && flt v (Fin 0.95));
    [|by rewrite app_nil_r].
  destruct (save_model_dir flags) as [dir|]; [|by rewrite app_nil_r].
  destruct (truthy (Some dir)); [|by rewrite app_nil_r].
  cbn. split; [|done]. by rewrite <- !app_assoc.
Qed.

Lemma epoch_body_trace flags bf16 mgn tdl vdl (s : state) acc e :
  ∃ r, let st := epoch_body flags bf16 mgn tdl vdl (s, acc) e in
    fits tdl vdl (e, r) ∧
    st.2 = acc ∧
    trace st.1 = trace s ++ epoch_events flags (training s) bf16 mgn acc (e, r) ∧
    training st.1 = training s.
Proof.
  unfold epoch_body, epoch_tail.
  destruct (train_phase_trace bf16 mgn e (tdl e) s (TrainLocals (Fin 0) [] []))
    as (xs & Hxl & Hxt & Hxm).
  cbn zeta in Hxl, Hxt, Hxm.
  destruct (foldl (train_step bf16 mgn e) _ (tdl e)) as [s1 loc]. cbn [fst] in *.
  set (s2 := emit (LogInfo "Epoch Train Accuracy %.4f" [AFloat acc]) s1).
  destruct (val_phase_trace bf16 (vdl e) s2 ([], [])) as (ys & Hyl & Hyt & Hym).
  cbn zeta in Hyl, Hyt, Hym.
  destruct (foldl (val_step bf16) _ (vdl e)) as [s3 [ps ls]]. cbn [fst] in *.
  exists (EpochValues xs ys (accuracy_score (train_preds loc) (train_labels loc))
            (accuracy_score ps ls) (running_loss loc)).
  cbn zeta. cbn [fst snd]. split; [done|]. split; [done|].
  match goal with |- context [checkpoint ?f ?e ?v ?a ?s] =>
    destruct (checkpoint_trace f e v a s) as [Hct Hcm] end.
  rewrite Hct, Hcm. cbn [emit trace training] in *.
  rewrite Hyt, Hym. subst s2. cbn [emit trace training]. rewrite Hxt, Hxm.
  split; [|done].
  unfold epoch_events. cbn [ev_train ev_val ev_trainAcc ev_testAcc ev_loss].
  rewrite <- !app_assoc. cbn [app]. done.
Qed.

Lemma train_loop_fold flags bf16 mgn tdl vdl epochs : ∀ (s : state) acc,
  ∃ rs, let st := foldl (epoch_body flags bf16 mgn tdl vdl) (s, acc) epochs in
    rs.*1 = epochs ∧
    Forall (fits tdl vdl) rs ∧
    st.2 = acc ∧
    trace st.1 = trace s ++ flat_map (epoch_events flags (training s) bf16 mgn acc) rs ∧
    training st.1 = training s.
Proof.
  induction epochs as [|e epochs IH]; intros s acc.
  - exists []. cbn. by rewrite app_nil_r.
  - destruct (epoch_body_trace flags bf16 mgn tdl vdl s acc e)
      as (r & Hfit & Hacc & Htr & Hmode).
    cbn zeta in Hfit, Hacc, Htr, Hmode.
    destruct (epoch_body flags bf16 mgn tdl vdl (s, acc) e) as [s1 acc1] eqn:Hbody.
    cbn [fst snd] in *. subst acc1.
    destruct (IH s1 acc) as (rs & Hrs & Hfits & Hacc' & Htr' & Hmode').
    exists ((e, r) :: rs). cbn [foldl]. rewrite Hbody. cbn zeta in *.
    split; [cbn; by rewrite Hrs|]. split; [by constructor|]. split; [done|].
    split; [|congruence].
    rewrite Htr', Htr, Hmode. cbn [flat_map]. by rewrite <- app_assoc.
Qed.

(** The whole trace of a run. *)
Lemma train_trace tdl vdl (m : net) mode bf16 flags epochs mgn :
  ∃ rs,
    rs.*1 = range 1 (epochs + 1) ∧
    Forall (fits tdl vdl) rs ∧
    trace (train tdl vdl m mode bf16 flags epochs mgn) =
      [WriterOpen "tensorboard"; ModelTrain] ++
      flat_map (epoch_events flags true bf16 mgn (Fin 0)) rs ++ [WriterClose] ∧
    training (train tdl vdl m mode bf16 flags epochs mgn) = true.
Proof.
  unfold train, train_loop.
  match goal with |- context [foldl ?f (?s, ?a) ?l] =>
    destruct (train_loop_fold flags bf16 mgn tdl vdl l s a)
      as (rs & Hrs & Hfits & _ & Htr & Hmode) end.
  cbn zeta in Htr, Hmode.
  destruct (foldl _ _ _) as [s1 acc1]. cbn [fst] in *.
  exists rs. split; [done|]. split; [done|].
  cbn [emit trace training]. rewrite Htr, Hmode. cbn [emit trace training set_training].
  by rewrite <- !app_assoc.
Qed.

(** The two lists a phase hands to [accuracy_score] have the same length
    when the model returns one row of logits per input row and every batch
    comes with one label per row. *)
Lemma rows_agree bf16 mgn e batches :
  (∀ m mode ac ids mask tts labels,
     length (logits (forward m mode ac ids mask tts labels)) = length ids) →
  Forall (λ item : batch * list Z, length item.2 = length (input_ids item.1)) batches →
  (∀ (s : state) loc,
     length (train_preds loc) = length (train_labels loc) →
     let r := foldl (train_step bf16 mgn e) (s, loc) batches in
     length (train_preds r.2) = length (train_labels r.2)) ∧
  (∀ (s : state) acc,
     length acc.1 = length acc.2 →
     let r := foldl (val_step bf16) (s, acc) batches in
     length r.2.1 = length r.2.2).
Proof.
  intros Hrows Hbatches. split.
  - induction Hbatches as [|[b labels] batches Hitem _ IH]; intros s loc Hloc; [done|].
    cbn [foldl]. apply IH. cbn [fst snd] in *.
    unfold predictions. cbn [train_preds train_labels].
    rewrite !length_app, length_fmap, Hrows. lia.
  - induction Hbatches as [|[b labels] batches Hitem _ IH]; intros s [ps ls] Hacc; [done|].
    cbn [foldl]. apply IH. cbn [fst snd] in *.
    unfold predictions. rewrite !length_app, length_fmap, Hrows. lia.
Qed.

(** Observing a run through [φ] observes its epochs in turn. *)
Lemma observe_run {X} (φ : event → option X) (g : Z → list X)
    tdl vdl (m : net) mode bf16 flags epochs mgn :
  (∀ er, fits tdl vdl er →
         omap φ (epoch_events flags true bf16 mgn (Fin 0) er) = g er.1) →
  omap φ (trace (train tdl vdl m mode bf16 flags epochs mgn)) =
    omap φ [WriterOpen "tensorboard"; ModelTrain] ++
    flat_map g (range 1 (epochs + 1)) ++ omap φ [WriterClose].
Proof.
  intros Hg.
  destruct (train_trace tdl vdl m mode bf16 flags epochs mgn)
    as (rs & Hrs & Hfits & Htr & _).
  rewrite Htr, <- Hrs, <- flat_map_fst.
  rewrite !omap_app, omap_flat_map. do 2 f_equal.
  apply flat_map_Forall_ext. eapply Forall_impl; [exact Hfits|].
  intros er Her. by apply Hg.
Qed.

Lemma checkpoint_events_cases flags e v acc :
  checkpoint_events flags e v acc = [] ∨
  ∃ dir, checkpoint_events flags e v acc = save_events dir e.
Proof.
  unfold checkpoint_events.
  destruct (_ && _); [|by left].
  destruct (save_model_dir flags) as [dir|]; [|by left].
  destruct (truthy _); [right; by exists dir|by left].
Qed.

(** An observation that sees none of the statements of a save sees nothing of
    the checkpoint step. *)
Lemma omap_checkpoint_events {X} (φ : event → option X) flags e v acc :
  (∀ dir, omap φ (save_events dir e) = []) →
  omap φ (checkpoint_events flags e v acc) = [].
Proof.
  intros Hφ.
  destruct (checkpoint_events_cases flags e v acc) as [->|[dir ->]]; [done|apply Hφ].
Qed.

Lemma length_range_epochs epochs :
  length (range 1 (epochs + 1)) = Z.to_nat epochs.
Proof. unfold range. rewrite length_seqZ. f_equal. lia. Qed.

(** Rewrites an observation of the events of one epoch into the observations
    of its parts. *)
Ltac observe_epoch :=
  unfold epoch_events, step_events, val_events;
  rewrite ?omap_app, ?omap_flat_map; cbn;
  rewrite ?flat_map_nil_const, ?flat_map_singleton_replicate, ?flat_map_replicate.

(** *** Metrics *)

Lemma scalar_keys_epoch flags bf16 mgn tdl vdl er :
  fits tdl vdl er →
  omap scalar_key (epoch_events flags true bf16 mgn (Fin 0) er) =
    replicate (length (tdl er.1)) ("Loss/train", er.1) ++
    [("Accuracy/train", er.1); ("Accuracy/test", er.1)].
Proof.
  destruct er as [e r]. intros [Ht Hv]. cbn [fst snd] in *.
  observe_epoch.
  rewrite omap_checkpoint_events by done.
  by rewrite Ht.
Qed.

Lemma flat_map_singleton_id {A} (l : list A) : flat_map (λ x, [x]) l = l.
Proof. induction l as [|x l IH]; [done|]. cbn. by rewrite IH. Qed.

Lemma loss_steps_epoch flags bf16 mgn tdl vdl er :
  fits tdl vdl er →
  omap (scalar_step "Loss/train") (epoch_events flags true bf16 mgn (Fin 0) er) =
    replicate (length (tdl er.1)) er.1.
Proof.
  destruct er as [e r]. intros [Ht Hv]. cbn [fst snd] in *.
  observe_epoch.
  rewrite omap_checkpoint_events by done.
  by rewrite app_nil_r, Ht.
Qed.

Lemma train_accuracy_steps_epoch flags bf16 mgn tdl vdl er :
  fits tdl vdl er →
  omap (scalar_step "Accuracy/train") (epoch_events flags true bf16 mgn (Fin 0) er) =
    [er.1].
Proof.
  destruct er as [e r]. intros [Ht Hv]. cbn [fst snd] in *.
  observe_epoch.
  by rewrite omap_checkpoint_events by done.
Qed.

Lemma test_accuracy_steps_epoch flags bf16 mgn tdl vdl er :
  fits tdl vdl er →
  omap (scalar_step "Accuracy/test") (epoch_events flags true bf16 mgn (Fin 0) er) =
    [er.1].
Proof.
  destruct er as [e r]. intros [Ht Hv]. cbn [fst snd] in *.
  observe_epoch.
  by rewrite omap_checkpoint_events by done.
Qed.

(** C3 (amended).  Of a run of N = [epochs] epochs the metrics writer receives,
    for the epochs 1..N in turn: one "Loss/train" entry for every batch of the
    training loader (not one for the epoch), each keyed by the epoch index,
    then one "Accuracy/train" and one "Accuracy/test" entry keyed by the epoch
    index.  So there are exactly N pairs of accuracy entries, in epoch order,
    and as many loss entries as training batches were processed. *)
Theorem writer_entries_per_run tdl vdl (m : net) mode bf16 flags epochs mgn :
  let tr := trace (train tdl vdl m mode bf16 flags epochs mgn) in
  omap scalar_key tr =
    flat_map (λ e, replicate (length (tdl e)) ("Loss/train", e) ++
                   [("Accuracy/train", e); ("Accuracy/test", e)])
             (range 1 (epochs + 1)) ∧
  omap (scalar_step "Loss/train") tr =
    flat_map (λ e, replicate (length (tdl e)) e) (range 1 (epochs + 1)) ∧
  omap (scalar_step "Accuracy/train") tr = range 1 (epochs + 1) ∧
  omap (scalar_step "Accuracy/test") tr = range 1 (epochs + 1) ∧
  length (range 1 (epochs + 1)) = Z.to_nat epochs.
Proof.
  cbn zeta. repeat split.
  - rewrite (observe_run scalar_key
      (λ e, replicate (length (tdl e)) ("Loss/train", e) ++
            [("Accuracy/train", e); ("Accuracy/test", e)])).
    + cbn. by rewrite app_nil_r.
    + intros er Her. by apply (scalar_keys_epoch _ _ _ tdl vdl).
  - rewrite (observe_run (scalar_step "Loss/train")
      (λ e, replicate (length (tdl e)) e)).
    + cbn. by rewrite app_nil_r.
    + intros er Her. by apply (loss_steps_epoch _ _ _ tdl vdl).
  - rewrite (observe_run (scalar_step "Accuracy/train") (λ e, [e])).
    + cbn. by rewrite app_nil_r, flat_map_singleton_id.
    + intros er Her. by apply (train_accuracy_steps_epoch _ _ _ tdl vdl).
  - rewrite (observe_run (scalar_step "Accuracy/test") (λ e, [e])).
    + cbn. by rewrite app_nil_r, flat_map_singleton_id.
    + intros er Her. by apply (test_accuracy_steps_epoch _ _ _ tdl vdl).
  - apply length_range_epochs.
Qed.

(** *** The schedule of a run *)

Lemma step_statements_epoch flags bf16 mgn tdl vdl er :
  fits tdl vdl er →
  omap step_statement_of (epoch_events flags true bf16 mgn (Fin 0) er) =
    flat_map (λ _, [ClearGradients; ForwardPass bf16; AccumulatePredictions;
                    ClipGradients mgn; BackwardPass; ApplyOptimizer;
                    AccumulateLoss]) (tdl er.1).
Proof.
  destruct er as [e r]. intros [Ht Hv]. cbn [fst snd] in *.
  observe_epoch.
  rewrite omap_checkpoint_events by done.
  by rewrite !app_nil_r, Ht.
Qed.

Lemma progress_epoch flags bf16 mgn tdl vdl er :
  fits tdl vdl er →
  omap progress_of (epoch_events flags true bf16 mgn (Fin 0) er) =
    replicate (length (tdl er.1)) TrainBatch ++
    replicate (length (vdl er.1)) ValBatch ++ [EpochDone er.1].
Proof.
  destruct er as [e r]. intros [Ht Hv]. cbn [fst snd] in *.
  observe_epoch.
  rewrite omap_checkpoint_events by done.
  by rewrite Ht, Hv.
Qed.

(** What a training step does to the objects and to the accumulators. *)
Lemma train_step_state bf16 mgn e (s : state) loc (item : batch * list Z) :
  let n0 := zero_grad (model s) in
  let out := forward n0 (training s) bf16 (input_ids item.1)
               (attention_mask item.1) (token_type_ids item.1) (Some item.2) in
  let r := train_step bf16 mgn e (s, loc) item in
  model r.1 = optimizer_step (backward out (clip_grad_norm_ mgn n0)) ∧
  training r.1 = training s ∧
  autocast r.1 = false ∧
  running_loss r.2 = fadd (running_loss loc) (loss out) ∧
  train_preds r.2 = train_preds loc ++ predictions out ∧
  train_labels r.2 = train_labels loc ++ item.2.
Proof. by destruct item as [b labels]. Qed.

Lemma train_phase_model bf16 mgn e batches : ∀ (s : state) loc,
  let r := foldl (train_step bf16 mgn e) (s, loc) batches in
  model r.1 =
    foldl (λ n (item : batch * list Z),
             optimizer_step
               (backward (forward (zero_grad n) (training s) bf16 (input_ids item.1)
                            (attention_mask item.1) (token_type_ids item.1)
                            (Some item.2))
                         (clip_grad_norm_ mgn (zero_grad n))))
          (model s) batches ∧
  training r.1 = training s.
Proof.
  induction batches as [|item batches IH]; intros s loc; [done|].
  cbn [foldl]. cbn zeta in *.
  destruct (train_step_state bf16 mgn e s loc item) as (Hm & Ht & _).
  cbn zeta in Hm, Ht.
  destruct (train_step bf16 mgn e (s, loc) item) as [s1 loc1]. cbn [fst] in *.
  destruct (IH s1 loc1) as [IHm IHt].
  by rewrite IHm, IHt, Hm, Ht.
Qed.

Lemma val_phase_model bf16 batches : ∀ (s : state) acc,
  let r := foldl (val_step bf16) (s, acc) batches in
  model r.1 = model s ∧ training r.1 = training s.
Proof.
  induction batches as [|[b labels] batches IH]; intros s [ps ls]; [done|].
  cbn [foldl val_step]. cbn zeta in *.
  match goal with |- context [foldl _ (?s1, ?a1) batches] =>
    destruct (IH s1 a1) as [-> ->] end.
  done.
Qed.

Lemma checkpoint_model flags e v acc (s : state) :
  model (checkpoint flags e v acc s) = model s ∧
  training (checkpoint flags e v acc s) = training s.
Proof.
  unfold checkpoint.
  destruct (_ && _ && _); [|done].
  destruct (save_model_dir flags) as [dir|]; [|done].
  by destruct (truthy (Some dir)).
Qed.

Lemma epoch_body_model flags bf16 mgn tdl vdl (s : state) acc e :
  let r := epoch_body flags bf16 mgn tdl vdl (s, acc) e in
  model r.1 =
    foldl (λ n (item : batch * list Z),
             optimizer_step
               (backward (forward (zero_grad n) (training s) bf16 (input_ids item.1)
                            (attention_mask item.1) (token_type_ids item.1)
                            (Some item.2))
                         (clip_grad_norm_ mgn (zero_grad n))))
          (model s) (tdl e) ∧
  training r.1 = training s.
Proof.
  cbn zeta. unfold epoch_body.
  destruct (train_phase_model bf16 mgn e (tdl e) s (TrainLocals (Fin 0) [] []))
    as [Hm Ht]. cbn zeta in Hm, Ht.
  destruct (foldl (train_step bf16 mgn e) _ (tdl e)) as [s1 loc1]. cbn [fst] in *.
  unfold epoch_tail.
  match goal with |- context [foldl (val_step bf16) (?s2, ?a2) (vdl e)] =>
    destruct (val_phase_model bf16 (vdl e) s2 a2) as [Hvm Hvt] end.
  cbn zeta in Hvm, Hvt.
  destruct (foldl (val_step bf16) _ (vdl e)) as [s3 [ps ls]]. cbn [fst] in *.
  match goal with |- context [checkpoint ?f ?e ?v ?a ?s] =>
    destruct (checkpoint_model f e v a s) as [-> ->] end.
  cbn [emit model training] in *. by rewrite Hvm, Hvt, Hm, Ht.
Qed.

Lemma train_loop_model flags bf16 mgn tdl vdl epochs : ∀ (s : state) acc,
  training s = true →
  model (foldl (epoch_body flags bf16 mgn tdl vdl) (s, acc) epochs).1 =
    foldl (λ n e,
             foldl (λ n (item : batch * list Z),
                      optimizer_step
                        (backward (forward (zero_grad n) true bf16 (input_ids item.1)
                                     (attention_mask item.1) (token_type_ids item.1)
                                     (Some item.2))
                                  (clip_grad_norm_ mgn (zero_grad n))))
                   n (tdl e))
          (model s) epochs.
Proof.
  induction epochs as [|e epochs IH]; intros s acc Hs; [done|].
  cbn [foldl].
  destruct (epoch_body_model flags bf16 mgn tdl vdl s acc e) as [Hm Ht].
  cbn zeta in Hm, Ht.
  destruct (epoch_body flags bf16 mgn tdl vdl (s, acc) e) as [s1 acc1].
  cbn [fst] in *.
  rewrite IH by congruence. by rewrite Hm, Hs.
Qed.

Lemma range_epochs epochs :
  range 1 (epochs + 1) = Z.of_nat <$> seq 1 (Z.to_nat epochs).
Proof.
  unfold range, seqZ. replace (epochs + 1 - 1)%Z with epochs by lia.
  rewrite <- fmap_S_seq, <- list_fmap_compose.
  apply list_fmap_ext. intros _ i _. cbn. lia.
Qed.

(** C8.  A run iterates the epochs 1, 2, ..., N in order, each through a full
    pass over the training loader followed by a full pass over the validation
    loader, none cut short or skipped; and every training step performs, in
    this order: clear the gradients, run the forward pass (under autocast
    exactly when [enable_bf16] is set), accumulate the predicted labels, clip
    the gradient norm to [max_grad_norm], run the backward pass, apply the
    optimizer step, accumulate the loss.  The statements act on the objects
    of the run: a step leaves the network that results from clearing the
    gradients, clipping, the backward pass of the output of the forward pass
    on the cleared network, and the optimizer step, and it extends the
    predictions and the labels and adds the loss of that output to the
    running loss; the network a run leaves is the one these steps produce
    from the network passed in, over every batch of every epoch in turn. *)
Theorem training_schedule tdl vdl (m : net) mode bf16 flags epochs mgn :
  let run := train tdl vdl m mode bf16 flags epochs mgn in
  let tr := trace run in
  let step (training : bool) (n : net) (item : batch * list Z) : net :=
    optimizer_step
      (backward (forward (zero_grad n) training bf16 (input_ids item.1)
                   (attention_mask item.1) (token_type_ids item.1) (Some item.2))
                (clip_grad_norm_ mgn (zero_grad n))) in
  range 1 (epochs + 1) = Z.of_nat <$> seq 1 (Z.to_nat epochs) ∧
  length (range 1 (epochs + 1)) = Z.to_nat epochs ∧
  omap progress_of tr =
    flat_map (λ e, replicate (length (tdl e)) TrainBatch ++
                   replicate (length (vdl e)) ValBatch ++ [EpochDone e])
             (range 1 (epochs + 1)) ∧
  omap step_statement_of tr =
    flat_map (λ e, flat_map (λ _, [ClearGradients; ForwardPass bf16;
                                   AccumulatePredictions; ClipGradients mgn;
                                   BackwardPass; ApplyOptimizer; AccumulateLoss])
                            (tdl e))
             (range 1 (epochs + 1)) ∧
  (∀ e (s : state) loc (item : batch * list Z),
     let out := forward (zero_grad (model s)) (training s) bf16 (input_ids item.1)
                  (attention_mask item.1) (token_type_ids item.1) (Some item.2) in
     let r := train_step bf16 mgn e (s, loc) item in
     model r.1 = step (training s) (model s) item ∧
     running_loss r.2 = fadd (running_loss loc) (loss out) ∧
     train_preds r.2 = train_preds loc ++ predictions out ∧
     train_labels r.2 = train_labels loc ++ item.2) ∧
  model run =
    foldl (λ n e, foldl (step true) n (tdl e)) m (range 1 (epochs + 1)).
Proof.
  cbn zeta. split; [|split; [|split; [|split; [|split]]]].
  - apply range_epochs.
  - apply length_range_epochs.
  - rewrite (observe_run progress_of
      (λ e, replicate (length (tdl e)) TrainBatch ++
            replicate (length (vdl e)) ValBatch ++ [EpochDone e])).
    + cbn. by rewrite app_nil_r.
    + intros er Her. by apply (progress_epoch _ _ _ tdl vdl).
  - rewrite (observe_run step_statement_of
      (λ e, flat_map (λ _, [ClearGradients; ForwardPass bf16;
                            AccumulatePredictions; ClipGradients mgn;
                            BackwardPass; ApplyOptimizer; AccumulateLoss]) (tdl e))).
    + cbn. by rewrite app_nil_r.
    + intros er Her. by apply (step_statements_epoch _ _ _ tdl vdl).
  - intros e s loc item.
    destruct (train_step_state bf16 mgn e s loc item) as (Hm & _ & _ & Hl & Hp & Hy).
    done.
  - unfold train, train_loop.
    match goal with |- context [foldl ?f (?s, ?a) ?l] =>
      pose proof (train_loop_model flags bf16 mgn tdl vdl l s a eq_refl) as Hrun;
      destruct (foldl f (s, a) l) as [s1 acc1] end.
    cbn [fst emit model] in *. exact Hrun.
Qed.

(** *** The mode of the model *)

Lemma val_forward_modes_epoch flags bf16 mgn tdl vdl er :
  fits tdl vdl er →
  omap val_forward_mode (epoch_events flags true bf16 mgn (Fin 0) er) =
    replicate (length (vdl er.1)) true.
Proof.
  destruct er as [e r]. intros [Ht Hv]. cbn [fst snd] in *.
  observe_epoch.
  rewrite omap_checkpoint_events by done.
  by rewrite app_nil_r, Hv.
Qed.

Lemma forward_modes_epoch flags bf16 mgn tdl vdl er :
  fits tdl vdl er →
  omap forward_mode (epoch_events flags true bf16 mgn (Fin 0) er) =
    replicate (length (tdl er.1) + length (vdl er.1)) true.
Proof.
  destruct er as [e r]. intros [Ht Hv]. cbn [fst snd] in *.
  observe_epoch.
  rewrite omap_checkpoint_events by done.
  by rewrite app_nil_r, Ht, Hv, replicate_add.
Qed.

Lemma model_train_calls_epoch flags bf16 mgn tdl vdl er :
  fits tdl vdl er →
  omap model_train_call (epoch_events flags true bf16 mgn (Fin 0) er) = [].
Proof.
  destruct er as [e r]. intros [Ht Hv]. cbn [fst snd] in *.
  observe_epoch.
  by rewrite omap_checkpoint_events by done.
Qed.

(** C10.  Whatever mode the model is passed in, [model.train()] is called
    once, before the first epoch, and nothing switches the mode afterwards:
    every forward pass of every validation phase (one per validation batch
    and epoch) runs with the model in training mode, as every forward pass of
    the run does, and the model is still in training mode at the end. *)
Theorem validation_runs_in_training_mode tdl vdl (m : net) mode bf16 flags epochs mgn :
  let run := train tdl vdl m mode bf16 flags epochs mgn in
  take 2 (trace run) = [WriterOpen "tensorboard"; ModelTrain] ∧
  omap model_train_call (trace run) = [()] ∧
  omap val_forward_mode (trace run) =
    flat_map (λ e, replicate (length (vdl e)) true) (range 1 (epochs + 1)) ∧
  omap forward_mode (trace run) =
    flat_map (λ e, replicate (length (tdl e) + length (vdl e)) true)
             (range 1 (epochs + 1)) ∧
  training run = true.
Proof.
  cbn zeta. repeat split.
  - destruct (train_trace tdl vdl m mode bf16 flags epochs mgn)
      as (rs & _ & _ & -> & _). done.
  - rewrite (observe_run model_train_call (λ _, [])).
    + cbn. by rewrite flat_map_nil_const.
    + intros er Her. by apply (model_train_calls_epoch _ _ _ tdl vdl).
  - rewrite (observe_run val_forward_mode (λ e, replicate (length (vdl e)) true)).
    + cbn. by rewrite app_nil_r.
    + intros er Her. by apply (val_forward_modes_epoch _ _ _ tdl vdl).
  - rewrite (observe_run forward_mode
      (λ e, replicate (length (tdl e) + length (vdl e)) true)).
    + cbn. by rewrite app_nil_r.
    + intros er Her. by apply (forward_modes_epoch _ _ _ tdl vdl).
  - by destruct (train_trace tdl vdl m mode bf16 flags epochs mgn)
      as (rs & _ & _ & _ & ->).
Qed.

(** *** The checkpoint policy *)

Lemma fgt_spec (x y : Q) : fgt (Fin x) (Fin y) = true ↔ (y < x)%Q.
Proof.
  cbn. rewrite negb_true_iff, <- not_true_iff_false, Qle_bool_iff.
  split; [apply Qnot_le_lt|apply Qlt_not_le].
Qed.

Lemma in_band_spec (q : Q) : in_band (Fin q) = true ↔ (0.8 < q ∧ q < 0.95)%Q.
Proof.
  unfold in_band, flt. by rewrite andb_true_iff, !fgt_spec.
Qed.

(** An accuracy above 0.8 is above 0: with [acc = 0] the first comparison of
    the checkpoint condition decides nothing. *)
Lemma condition_against_zero (v : pyfloat) :
  fgt v (Fin 0) && fgt v (Fin 0.8) && flt v (Fin 0.95) = in_band v.
Proof.
  unfold in_band. rewrite <- andb_assoc.
  destruct (fgt v (Fin 0)) eqn:H0; [done|].
  destruct v as [|q]; [done|]. cbn [andb].
  destruct (fgt (Fin q) (Fin 0.8)) eqn:H8; [|done].
  apply fgt_spec in H8.
  assert (fgt (Fin q) (Fin 0) = true) as H0'; [|congruence].
  apply fgt_spec. lra.
Qed.

Lemma checkpoint_events_configured flags dir e v acc :
  save_model_dir flags = Some dir → truthy (Some dir) = true →
  checkpoint_events flags e v acc =
    if fgt v acc && in_band v then save_events dir e else [].
Proof.
  intros Hdir Htruthy. unfold checkpoint_events, in_band.
  by rewrite Hdir, Htruthy, andb_assoc.
Qed.

Lemma checkpoint_view_checkpoint_events flags e v acc :
  omap checkpoint_view (checkpoint_events flags e v acc) =
    checkpoint_events flags e v acc.
Proof.
  by destruct (checkpoint_events_cases flags e v acc) as [->|[dir ->]].
Qed.

Lemma checkpoint_view_epoch flags mode bf16 mgn acc er :
  omap checkpoint_view (epoch_events flags mode bf16 mgn acc er) =
    AddScalar "Accuracy/test" (ev_testAcc er.2) er.1 ::
    checkpoint_events flags er.1 (ev_testAcc er.2) acc.
Proof.
  destruct er as [e r]. cbn [fst snd].
  observe_epoch.
  by rewrite checkpoint_view_checkpoint_events.
Qed.

(** The checkpoint policy over a whole run: for the epochs in turn, the
    validation accuracy that is written, then what the checkpoint step does
    for it with [acc = 0]. *)
Lemma checkpoint_view_run tdl vdl (m : net) mode bf16 flags epochs mgn :
  ∃ vs : list (Z * pyfloat),
    vs.*1 = range 1 (epochs + 1) ∧
    omap checkpoint_view (trace (train tdl vdl m mode bf16 flags epochs mgn)) =
      flat_map (λ ev, AddScalar "Accuracy/test" ev.2 ev.1 ::
                      checkpoint_events flags ev.1 ev.2 (Fin 0)) vs.
Proof.
  destruct (train_trace tdl vdl m mode bf16 flags epochs mgn)
    as (rs & Hrs & _ & Htr & _).
  exists ((λ er, (er.1, ev_testAcc er.2)) <$> rs). split.
  - rewrite <- Hrs, <- list_fmap_compose. done.
  - rewrite Htr, !omap_app, omap_flat_map. cbn [omap list_omap checkpoint_view
      checkpoint_event app]. rewrite app_nil_r.
    clear. induction rs as [|er rs IH]; [done|].
    cbn [flat_map fmap list_fmap]. rewrite IH, checkpoint_view_epoch. done.
Qed.

(** C1.  With a save directory configured, the checkpoint-save step (make the
    directory, save the tokenizer, then the model, log the two messages) runs
    after an epoch exactly when the validation accuracy written for that
    epoch exceeds the tracking variable [acc] and lies strictly between 0.80
    and 0.95, and not otherwise: first for one pass through the loop body
    with any value of [acc], then for a whole run, where [acc] is 0. *)
Theorem checkpoint_save_iff tdl vdl (m : net) mode bf16 flags epochs mgn dir :
  save_model_dir flags = Some dir →
  truthy (save_model_dir flags) = true →
  (∀ (s : state) acc e, ∃ v,
     let st := epoch_body flags bf16 mgn tdl vdl (s, acc) e in
     omap checkpoint_view (trace st.1) =
       omap checkpoint_view (trace s) ++
       AddScalar "Accuracy/test" v e ::
       (if fgt v acc && in_band v then save_events dir e else [])) ∧
  (∃ vs : list (Z * pyfloat),
     vs.*1 = range 1 (epochs + 1) ∧
     omap checkpoint_view (trace (train tdl vdl m mode bf16 flags epochs mgn)) =
       flat_map (λ ev, AddScalar "Accuracy/test" ev.2 ev.1 ::
                       (if fgt ev.2 (Fin 0) && in_band ev.2
                        then save_events dir ev.1 else [])) vs) ∧
  (∀ q, in_band (Fin q) = true ↔ (0.8 < q ∧ q < 0.95)%Q) ∧
  in_band NaN = false.
Proof.
  intros Hdir Htruthy. rewrite Hdir in Htruthy.
  split; [|split; [|split]].
  - intros s acc e.
    destruct (epoch_body_trace flags bf16 mgn tdl vdl s acc e)
      as (r & _ & _ & Htr & _).
    exists (ev_testAcc r). cbn zeta in *.
    rewrite Htr, omap_app, checkpoint_view_epoch. cbn [fst snd].
    by rewrite (checkpoint_events_configured flags dir).
  - destruct (checkpoint_view_run tdl vdl m mode bf16 flags epochs mgn)
      as (vs & Hvs & Htr).
    exists vs. split; [done|]. rewrite Htr.
    apply flat_map_Forall_ext, Forall_true. intros ev.
    by rewrite (checkpoint_events_configured flags dir).
  - apply in_band_spec.
  - done.
Qed.

(** C2 (amended).  In every run, with or without a save directory, the
    tracking variable [acc] is 0 before the first epoch and after any number
    of epochs, since the loop body hands it on as it got it; the comparison
    [testAcc > acc] of the checkpoint condition is therefore one against 0
    and decides nothing for an accuracy in the band.  In a run with a save
    directory configured, every epoch whose validation accuracy is strictly
    between 0.80 and 0.95 therefore saves again, whatever the earlier epochs
    reached. *)
Theorem best_accuracy_is_never_updated tdl vdl (m : net) mode bf16 flags epochs mgn :
  (∀ (s : state) acc e, (epoch_body flags bf16 mgn tdl vdl (s, acc) e).2 = acc) ∧
  (∀ k, (train_loop flags bf16 mgn tdl vdl
           (take k (range 1 (epochs + 1))) m mode).2 = Fin 0) ∧
  (∀ v, fgt v (Fin 0) && fgt v (Fin 0.8) && flt v (Fin 0.95) = in_band v) ∧
  (∀ dir,
     save_model_dir flags = Some dir →
     truthy (save_model_dir flags) = true →
     ∃ vs : list (Z * pyfloat),
       vs.*1 = range 1 (epochs + 1) ∧
       omap checkpoint_view (trace (train tdl vdl m mode bf16 flags epochs mgn)) =
         flat_map (λ ev, AddScalar "Accuracy/test" ev.2 ev.1 ::
                         (if in_band ev.2 then save_events dir ev.1 else [])) vs).
Proof.
  split; [|split; [|split]].
  - intros s acc e.
    by destruct (epoch_body_trace flags bf16 mgn tdl vdl s acc e) as (r & _ & -> & _).
  - intros k. unfold train_loop.
    match goal with |- context [foldl ?f (?s, ?a) ?l] =>
      destruct (train_loop_fold flags bf16 mgn tdl vdl l s a)
        as (rs & _ & _ & Hacc & _) end.
    exact Hacc.
  - apply condition_against_zero.
  - intros dir Hdir Htruthy. rewrite Hdir in Htruthy.
    destruct (checkpoint_view_run tdl vdl m mode bf16 flags epochs mgn)
      as (vs & Hvs & Htr).
    exists vs. split; [done|]. rewrite Htr.
    apply flat_map_Forall_ext, Forall_true. intros ev.
    rewrite (checkpoint_events_configured flags dir) by done.
    unfold in_band. by rewrite andb_assoc, condition_against_zero.
Qed.

(** *** The "Epoch Train Accuracy" message *)

Lemma epoch_tail_trace flags bf16 vdl e rl acc (s : state) :
  ∃ ys v, ∀ trainAcc,
    trace (epoch_tail flags bf16 vdl e trainAcc rl acc s) =
      trace s ++
      [LogInfo "Epoch Train Accuracy %.4f" [AFloat acc]] ++
      flat_map (val_events (training s) bf16) ys ++
      [LogInfo "Test Accuracy %.4f" [AFloat v];
       LogInfo "Epoch %d, Loss %.4f" [AInt e; AFloat rl];
       AddScalar "Accuracy/train" trainAcc e;
       AddScalar "Accuracy/test" v e] ++
      checkpoint_events flags e v acc.
Proof.
  unfold epoch_tail.
  set (s2 := emit (LogInfo "Epoch Train Accuracy %.4f" [AFloat acc]) s).
  destruct (val_phase_trace bf16 (vdl e) s2 ([], [])) as (ys & _ & Hyt & _).
  cbn zeta in Hyt.
  destruct (foldl (val_step bf16) _ (vdl e)) as [s3 [ps ls]]. cbn [fst] in *.
  exists ys, (accuracy_score ps ls). intros trainAcc.
  match goal with |- context [checkpoint ?f ?e ?v ?a ?s] =>
    destruct (checkpoint_trace f e v a s) as [-> _] end.
  cbn [emit trace]. rewrite Hyt. subst s2. cbn [emit trace training].
  by rewrite <- !app_assoc.
Qed.

Lemma train_accuracy_messages_epoch flags bf16 mgn tdl vdl er :
  fits tdl vdl er →
  omap train_accuracy_message (epoch_events flags true bf16 mgn (Fin 0) er) =
    [[AFloat (Fin 0)]].
Proof.
  destruct er as [e r]. intros [Ht Hv]. cbn [fst snd] in *.
  observe_epoch.
  by rewrite omap_checkpoint_events by done.
Qed.

(** C9.  Every "Epoch Train Accuracy" message of a run, one per epoch, carries
    the value 0 of the tracking variable [acc].  In the part of the loop body
    that follows the computation of [trainAcc], the message carries [acc]
    whatever [trainAcc] is, no record handed to the logger depends on
    [trainAcc], and [trainAcc] is what is written to the metrics writer under
    "Accuracy/train". *)
Theorem train_accuracy_message_reports_acc tdl vdl (m : net) mode bf16 flags epochs mgn :
  omap train_accuracy_message (trace (train tdl vdl m mode bf16 flags epochs mgn)) =
    replicate (Z.to_nat epochs) [AFloat (Fin 0)] ∧
  (∀ e rl acc (s : state) trainAcc,
     let s' := epoch_tail flags bf16 vdl e trainAcc rl acc s in
     omap train_accuracy_message (trace s') =
       omap train_accuracy_message (trace s) ++ [[AFloat acc]] ∧
     omap (scalar_of "Accuracy/train") (trace s') =
       omap (scalar_of "Accuracy/train") (trace s) ++ [(trainAcc, e)] ∧
     ∀ other,
       omap log_record (trace s') =
       omap log_record (trace (epoch_tail flags bf16 vdl e other rl acc s))).
Proof.
  split.
  - rewrite (observe_run train_accuracy_message (λ _, [[AFloat (Fin 0)]])).
    + cbn. by rewrite app_nil_r, flat_map_singleton_replicate, length_range_epochs.
    + intros er Her. by apply (train_accuracy_messages_epoch _ _ _ tdl vdl).
  - intros e rl acc s trainAcc. cbn zeta.
    destruct (epoch_tail_trace flags bf16 vdl e rl acc s) as (ys & v & Htr).
    split; [|split].
    + rewrite Htr, !omap_app, omap_flat_map. cbn.
      rewrite flat_map_nil_const. by rewrite omap_checkpoint_events by done.
    + rewrite Htr, !omap_app, omap_flat_map. cbn.
      rewrite flat_map_nil_const. by rewrite omap_checkpoint_events by done.
    + intros other. rewrite !Htr, !omap_app. done.
Qed.

End TrainTheorems.

(** *** Concrete runs *)

(** C3, counterexample.  A run of one epoch over a training loader of two
    batches: one epoch is completed, and the writer has received two loss
    entries. *)
Lemma two_loss_entries_in_one_epoch :
  let tr := Train.trace (Train.train (H := toy_torch) two_batches one_batch ()
              false false {| Train.save_model_dir := None |} 1 (Fin 10)) in
  omap Train.progress_of tr =
    [Train.TrainBatch; Train.TrainBatch; Train.ValBatch; Train.EpochDone 1] ∧
  omap (Train.scalar_step "Loss/train") tr = [1; 1]%Z ∧
  length (omap (Train.scalar_step "Loss/train") tr) = 2 ∧
  Z.to_nat 1 = 1.
Proof. vm_compute. done. Qed.

(** C2, counterexample.  A run of one epoch without a save directory: the
    validation accuracy 9/10 lies in the band, and nothing is saved. *)
Lemma in_band_epoch_without_save_directory :
  let tr := Train.trace (Train.train (H := toy_torch) one_batch nine_of_ten ()
              false false {| Train.save_model_dir := None |} 1 (Fin 10)) in
  omap (Train.scalar_of "Accuracy/test") tr = [(Fin (9 # 10), 1%Z)] ∧
  Train.in_band (Fin (9 # 10)) = true ∧
  omap Train.checkpoint_view tr = [Train.AddScalar "Accuracy/test" (Fin (9 # 10)) 1].
Proof. vm_compute. done. Qed.

(** C1, witness: a run of two epochs with the save directory "ckpt". *)
Lemma checkpoint_save_iff_witness :
  ∃ vs : list (Z * pyfloat),
    vs.*1 = range 1 (2 + 1) ∧
    omap Train.checkpoint_view
      (Train.trace (Train.train (H := toy_torch) one_batch nine_of_ten () false false
                      {| Train.save_model_dir := Some "ckpt" |} 2 (Fin 10))) =
      flat_map (λ ev, Train.AddScalar "Accuracy/test" ev.2 ev.1 ::
                      (if fgt ev.2 (Fin 0) && Train.in_band ev.2
                       then Train.save_events "ckpt" ev.1 else [])) vs.
Proof.
  exact (proj1 (proj2
    (checkpoint_save_iff (H := toy_torch) one_batch nine_of_ten () false false
       {| Train.save_model_dir := Some "ckpt" |} 2 (Fin 10) "ckpt"
       eq_refl eq_refl))).
Defined.

(** C2, witness: the same run. *)
Lemma best_accuracy_is_never_updated_witness :
  ∃ vs : list (Z * pyfloat),
    vs.*1 = range 1 (2 + 1) ∧
    omap Train.checkpoint_view
      (Train.trace (Train.train (H := toy_torch) one_batch nine_of_ten () false false
                      {| Train.save_model_dir := Some "ckpt" |} 2 (Fin 10))) =
      flat_map (λ ev, Train.AddScalar "Accuracy/test" ev.2 ev.1 ::
                      (if Train.in_band ev.2
                       then Train.save_events "ckpt" ev.1 else [])) vs.
Proof.
  exact (proj2 (proj2 (proj2
    (best_accuracy_is_never_updated (H := toy_torch) one_batch nine_of_ten ()
       false false {| Train.save_model_dir := Some "ckpt" |} 2 (Fin 10))))
    "ckpt" eq_refl eq_refl).
Defined.


(** ** Theorems about run_quantize_inc.py *)

Section QuantizeTheorems.
Import Quantize.
Context `{Collaborators}.

(** *** The two recognised failures *)

(** Unfolds [main] in a world where the saved model directory exists. *)
Ltac enter_main Hdir :=
  unfold main, quantize_model, bind, dir_exists, reading, writing,
    try_FileNotFoundError, set_workspace;
  rewrite (bool_decide_eq_true_2 _ Hdir); cbn [negb].

(** C5.  When the saved model directory does not exist, the driver hands one
    error record ("Saved model %s not found!") to the logger and returns
    normally; the file system is left as it was, the output directory
    included, and no collaborator is called. *)
Theorem missing_model_dir_is_logged flags (w : world) :
  fs w !! saved_model_dir flags = None →
  main flags w =
    (Ok (), World (fs w) (workspace w)
              (log w ++ [LogError "Saved model %s not found!"
                                  [saved_model_dir flags]])).
Proof.
  intros Hdir. unfold main, bind, dir_exists.
  rewrite bool_decide_eq_false_2; [done|].
  rewrite Hdir. by intros [? ?].
Qed.

Lemma new_DataLoader_raises ds bs sh e :
  new_DataLoader ds bs sh = Raise e → is_FileNotFoundError e = false.
Proof.
  unfold new_DataLoader. intros Hnew.
  destruct (sh && bool_decide (ds = [])); [by inversion Hnew|].
  destruct (bool_decide (bs ≤ 0)%Z); by inversion Hnew.
Qed.

(** C6.  With the saved model directory in place: a FileNotFoundError raised
    by [read_and_preprocess_data] (an instance of the class or of a class
    that inherits from it) is logged (the hint, then the exception with
    its traceback) and the driver returns normally, the file system
    untouched.  Every other exception propagates out of [main]: whatever the
    tokenizer loader, the DataLoader constructor, the model loader, the fit,
    the save or the copy raises, and whatever but a FileNotFoundError the
    preprocessing raises. *)
Theorem only_missing_data_is_caught flags (w : world) :
  is_Some (fs w !! saved_model_dir flags) →
  (∀ tok e,
     AutoTokenizer_from_pretrained (fs w) (saved_model_dir flags) = Ok tok →
     read_and_preprocess_data (fs w) (input_file flags) tok (seq_length flags)
       = Raise e →
     is_FileNotFoundError e = true →
     main flags w =
       (Ok (), World (fs w) (workspace w)
                 (log w ++ [LogError "Please follow instructions to download data." [];
                            LogException e]))) ∧
  (∀ e,
     AutoTokenizer_from_pretrained (fs w) (saved_model_dir flags) = Raise e →
     (main flags w).1 = Raise e) ∧
  (∀ tok,
     AutoTokenizer_from_pretrained (fs w) (saved_model_dir flags) = Ok tok →
     (∀ e,
        read_and_preprocess_data (fs w) (input_file flags) tok (seq_length flags)
          = Raise e →
        is_FileNotFoundError e = false →
        (main flags w).1 = Raise e) ∧
     (∀ test_dataset,
        read_and_preprocess_data (fs w) (input_file flags) tok (seq_length flags)
          = Ok test_dataset →
        (∀ e,
           new_DataLoader test_dataset (batch_size flags) true = Raise e →
           (main flags w).1 = Raise e) ∧
        (∀ test_loader,
           new_DataLoader test_dataset (batch_size flags) true = Ok test_loader →
           (∀ e,
              AutoModel_from_pretrained (fs w) (saved_model_dir flags) = Raise e →
              (main flags w).1 = Raise e) ∧
           (∀ model,
              AutoModel_from_pretrained (fs w) (saved_model_dir flags) = Ok model →
              (∀ e fs1,
                 quantization_fit model test_loader (evaluate_accuracy test_loader)
                   (Some (output_dir flags)) (fs w) = (Raise e, fs1) →
                 (main flags w).1 = Raise e) ∧
              (∀ quantized_model fs1,
                 quantization_fit model test_loader (evaluate_accuracy test_loader)
                   (Some (output_dir flags)) (fs w) = (Ok quantized_model, fs1) →
                 (∀ e fs2,
                    quantized_model_save quantized_model (output_dir flags) fs1
                      = (Raise e, fs2) →
                    (main flags w).1 = Raise e) ∧
                 (∀ fs2 e w',
                    quantized_model_save quantized_model (output_dir flags) fs1
                      = (Ok (), fs2) →
                    copy_model_files flags
                      (World fs2 (Some (output_dir flags)) (log w)) = (Raise e, w') →
                    (main flags w).1 = Raise e)))))).
Proof.
  intros Hdir. enter_main Hdir.
  split; [|split].
  - intros tok e -> -> ->. unfold logger_error, logger_error_exc_info. cbn.
    by rewrite <- app_assoc.
  - intros e ->. done.
  - intros tok ->. split.
    + intros e -> ->. done.
    + intros ds ->. split.
      * intros e He. rewrite He, (new_DataLoader_raises _ _ _ _ He). done.
      * intros tl ->. split.
        -- intros e ->. done.
        -- intros model ->. cbn [fs workspace log]. split.
           ++ intros e fs1 ->. done.
           ++ intros qm fs1 ->. cbn [fs workspace log]. split.
              ** intros e fs2 ->. done.
              ** intros fs2 e w' -> ->. done.
Qed.

(** *** The evaluation function *)

(** The batches of one pass hold every sample once, in the order drawn. *)
Lemma batch_sampler_concat n rest : ∀ cur,
  concat (batch_sampler n cur rest) = cur ++ rest.
Proof.
  induction rest as [|x rest IH]; intros cur; cbn [batch_sampler].
  - destruct cur; [done|]. cbn. by rewrite !app_nil_r.
  - destruct (length (cur ++ [x]) =? n)%nat.
    + cbn [concat]. by rewrite IH, <- app_assoc.
    + by rewrite IH, <- app_assoc.
Qed.

Lemma evaluate_fold_lengths (model_q : Model) chunks :
  (∀ ids mask tts, length (logits (model_call model_q ids mask tts)) = length ids) →
  ∀ acc,
    let r := foldl (evaluate_step model_q) acc (collate <$> chunks) in
    length r.1 = (length acc.1 + length (concat chunks))%nat ∧
    length r.2 = (length acc.2 + length (concat chunks))%nat.
Proof.
  intros Hrows. induction chunks as [|chunk chunks IH]; intros [ps ls].
  - cbn. lia.
  - cbn [fmap list_fmap foldl concat]. cbn zeta in IH |- *.
    destruct (IH (evaluate_step model_q (ps, ls) (collate chunk))) as [IH1 IH2].
    rewrite IH1, IH2. unfold evaluate_step, collate, predictions.
    cbn [fst snd input_ids attention_mask token_type_ids].
    rewrite !length_app, !length_fmap, Hrows, !length_fmap. lia.
Qed.

Lemma accuracy_score_bounds (y_true y_pred : list Z) :
  y_true ≠ [] →
  ∃ q, accuracy_score y_true y_pred = Fin q ∧ (0 <= q)%Q ∧ (q <= 1)%Q.
Proof.
  destruct y_true as [|y ys]; [done|]. intros _. unfold accuracy_score.
  eexists. split; [done|].
  pose proof (List.filter_length_le (λ p : Z * Z, (p.1 =? p.2)%Z)
                (zip (y :: ys) y_pred)) as Hle.
  pose proof (length_zip_with_l_eq pair (y :: ys) y_pred) as Hzip.
  assert (length (zip (y :: ys) y_pred) ≤ length (y :: ys))%nat as Hzle.
  { rewrite length_zip_with. lia. }
  cbn [length] in *. unfold Qle. cbn [Qnum Qden].
  rewrite <- Pos.of_nat_succ, Zpos_P_of_succ_nat. lia.
Qed.

Lemma evaluate_fold_labels (model_q : Model) chunks : ∀ acc,
  (foldl (evaluate_step model_q) acc (collate <$> chunks)).2 =
    acc.2 ++ (s_label <$> concat chunks).
Proof.
  induction chunks as [|chunk chunks IH]; intros [ps ls].
  - cbn. by rewrite app_nil_r.
  - cbn [fmap list_fmap foldl concat]. rewrite IH.
    unfold evaluate_step, collate. cbn [fst snd].
    by rewrite fmap_app, app_assoc.
Qed.

Lemma evaluate_fold_preds (model_q : Model) chunks : ∀ acc,
  (foldl (evaluate_step model_q) acc (collate <$> chunks)).1 =
    acc.1 ++ flat_map (λ chunk,
                predictions (model_call model_q (s_input_ids <$> chunk)
                               (s_attention_mask <$> chunk)
                               (s_token_type_ids <$> chunk))) chunks.
Proof.
  induction chunks as [|chunk chunks IH]; intros [ps ls].
  - cbn. by rewrite app_nil_r.
  - cbn [fmap list_fmap foldl flat_map]. rewrite IH.
    unfold evaluate_step, collate.
    cbn [fst snd input_ids attention_mask token_type_ids].
    by rewrite app_assoc.
Qed.

Lemma accuracy_score_nonempty (y_true y_pred : list Z) :
  y_true ≠ [] →
  accuracy_score y_true y_pred =
    Fin (Z.of_nat (length (List.filter (λ p : Z * Z, Z.eqb p.1 p.2)
                             (zip y_true y_pred)))
         # Pos.of_nat (length y_true)).
Proof. by destruct y_true. Qed.

(** C7.  For a model that returns one row of logits per input row, and a
    calibration loader built over a dataset of B samples with batch size [bs] as
    [main] builds it, the evaluation function calls the model once per batch
    of the drawn samples and accumulates exactly B predictions, those of the
    batches in turn, and exactly B labels, those of the drawn samples; the
    value it returns is the number of positions at which the accumulated
    predictions and labels agree, divided by B: a number between 0 and 1. *)
Theorem evaluate_accuracy_counts (model_q : Model) test_dataset (bs : Z) test_loader :
  (∀ ids mask tts, length (logits (model_call model_q ids mask tts)) = length ids) →
  (∀ l, sampler_order l ≡ₚ l) →
  new_DataLoader test_dataset bs true = Ok test_loader →
  let test_preds := (evaluate_loop test_loader model_q).1 in
  let test_labels := (evaluate_loop test_loader model_q).2 in
  test_preds =
    flat_map (λ chunk,
                predictions (model_call model_q (s_input_ids <$> chunk)
                               (s_attention_mask <$> chunk)
                               (s_token_type_ids <$> chunk)))
             (batch_sampler (Z.to_nat bs) [] (sampler_order test_dataset)) ∧
  test_labels = s_label <$> sampler_order test_dataset ∧
  length test_preds = length test_dataset ∧
  length test_labels = length test_dataset ∧
  evaluate_accuracy test_loader model_q =
    Fin (Z.of_nat (length (List.filter (λ p : Z * Z, Z.eqb p.1 p.2)
                             (zip test_preds test_labels)))
         # Pos.of_nat (length test_dataset)) ∧
  ∃ q, evaluate_accuracy test_loader model_q = Fin q ∧ (0 <= q)%Q ∧ (q <= 1)%Q.
Proof.
  intros Hrows Hperm Hnew. unfold new_DataLoader in Hnew.
  destruct (decide (test_dataset = [])) as [->|Hne]; [done|].
  rewrite bool_decide_eq_false_2 in Hnew by done. cbn [andb] in Hnew.
  destruct (bool_decide (bs ≤ 0)%Z); [done|].
  inversion Hnew as [Hloader]. clear Hnew.
  cbn zeta.
  unfold evaluate_accuracy, evaluate_loop, iterate. cbn [dl_batch_size dl_shuffle dl_dataset].
  set (chunks := batch_sampler (Z.to_nat bs) [] (sampler_order test_dataset)).
  destruct (evaluate_fold_lengths model_q chunks Hrows ([], [])) as [Hp Hl].
  pose proof (evaluate_fold_preds model_q chunks ([], [])) as Hps.
  pose proof (evaluate_fold_labels model_q chunks ([], [])) as Hls.
  cbn zeta in Hp, Hl. cbn [fst snd length app] in Hp, Hl, Hps, Hls.
  subst chunks. rewrite batch_sampler_concat in Hp, Hl, Hls. cbn [app] in Hp, Hl, Hls.
  rewrite (Permutation_length (Hperm test_dataset)) in Hp, Hl.
  destruct (foldl _ _ _) as [ps ls]. cbn [fst snd] in *.
  assert (ps ≠ []) as Hps_ne.
  { intros ->. cbn in Hp. destruct test_dataset; [done|]. cbn in Hp. lia. }
  split; [done|]. split; [done|]. split; [done|]. split; [done|].
  split.
  - by rewrite accuracy_score_nonempty, Hp.
  - by apply accuracy_score_bounds.
Qed.

(** *** The output directory *)

Lemma has_entry_union (name : string) (d1 d2 : directory) :
  has_entry name d2 = true → has_entry name (d1 ∪ d2) = true.
Proof.
  unfold has_entry. rewrite !bool_decide_eq_true.
  intros (p & c & Hp & Hhead).
  assert (is_Some ((d1 ∪ d2) !! p)) as [c' Hc'].
  { apply lookup_union_is_Some. right. by exists c. }
  by exists p, c'.
Qed.

Lemma separate_ne (a b : string) : separate a b = true → a ≠ b.
Proof.
  intros Hsep ->. unfold separate in Hsep.
  rewrite (bool_decide_eq_true_2 (components b `prefix_of` components b)) in Hsep
    by done.
  cbn [negb] in Hsep. by rewrite andb_false_r in Hsep.
Qed.


End QuantizeTheorems.

(** *** Concrete runs of the driver *)

(** The pattern of the copy on the names of a saved model directory. *)
Example weight_files_match_the_pattern :
  Quantize.fnmatch "pytorch_model.bin" "*.bin*" = true ∧
  Quantize.fnmatch "pytorch_model.bin.index.json" "*.bin*" = true ∧
  Quantize.fnmatch "config.json" "*.bin*" = false ∧
  Quantize.fnmatch "vocab.txt" "*.bin*" = false ∧
  Quantize.fnmatch "best_model.pt" "*.bin*" = false.
Proof. vm_compute. done. Qed.

(** What the handler of [main] catches: the class by its name, and a class
    that inherits from it; not its base class. *)
Example caught_by_the_handler :
  Quantize.is_FileNotFoundError
    (Quantize.Exception "FileNotFoundError" "data.csv") = true ∧
  Quantize.is_FileNotFoundError
    (Quantize.MkException "MissingCorpus" "data.csv"
       ["FileNotFoundError"; "OSError"; "Exception"; "BaseException"; "object"])
    = true ∧
  Quantize.is_FileNotFoundError (Quantize.Exception "OSError" "data.csv") = false ∧
  Quantize.is_FileNotFoundError
    (Quantize.Exception "ValueError" "batch_size should be a positive integer value")
    = false.
Proof. vm_compute. done. Qed.

(** A run on the toy collaborators: the output directory ends with the
    quantized weights, the configuration and the vocabulary, and without the
    float weights; nothing is logged. *)
Example toy_run :
  let '(r, w) := Quantize.main (H := toy_collaborators) (toy_flags "data.csv") (Quantize.World toy_files None []) in
  r = Quantize.Ok () ∧
  map_to_list <$> (Quantize.fs w !! "out") =
    Some [(["vocab.txt"], "vocabulary"); (["best_model.pt"], "int8 weights");
          (["config.json"], "config")] ∧
  Quantize.log w = [].
Proof. vm_compute. done. Qed.

(** C5, witness: the saved model directory "model" is missing from an empty
    file system. *)
Lemma missing_model_dir_is_logged_witness :
  Quantize.main (H := toy_collaborators) (toy_flags "data.csv") (Quantize.World ∅ None []) =
    (Quantize.Ok (),
     Quantize.World ∅ None [Quantize.LogError "Saved model %s not found!" ["model"]]).
Proof.
  exact (missing_model_dir_is_logged (H := toy_collaborators)
           (toy_flags "data.csv") (Quantize.World ∅ None []) eq_refl).
Defined.

(** C6, witness: the data file is missing. *)
Lemma only_missing_data_is_caught_witness :
  Quantize.main (H := toy_collaborators) (toy_flags "nodata.csv") (Quantize.World toy_files None []) =
    (Quantize.Ok (),
     Quantize.World toy_files None
       [Quantize.LogError "Please follow instructions to download data." [];
        Quantize.LogException (Quantize.Exception "FileNotFoundError" "nodata.csv")]).
Proof.
  exact (proj1 (only_missing_data_is_caught (H := toy_collaborators)
                  (toy_flags "nodata.csv") (Quantize.World toy_files None [])
                  (mk_is_Some _ _ eq_refl))
           () (Quantize.Exception "FileNotFoundError" "nodata.csv")
           eq_refl eq_refl eq_refl).
Defined.

(** C7, witness: three samples in batches of two, drawn in reverse; the toy
    model is right on two of them. *)
Lemma evaluate_accuracy_counts_witness :
  let test_loader :=
    Quantize.MkDataLoader [toy_sample 1 1; toy_sample 0 0; toy_sample 1 0] 2 true in
  (Quantize.evaluate_loop (H := toy_collaborators) test_loader ()).1 = [1; 0; 1]%Z ∧
  (Quantize.evaluate_loop (H := toy_collaborators) test_loader ()).2 = [0; 0; 1]%Z ∧
  Quantize.evaluate_accuracy (H := toy_collaborators) test_loader () = Fin (2 # 3).
Proof.
  destruct (evaluate_accuracy_counts (H := toy_collaborators) ()
              [toy_sample 1 1; toy_sample 0 0; toy_sample 1 0] 2
              (Quantize.MkDataLoader [toy_sample 1 1; toy_sample 0 0; toy_sample 1 0] 2 true)
              (λ ids _ _, length_fmap toy_logits ids)
              (λ l, reverse_Permutation l)
              eq_refl) as (Hp & Hl & _ & _ & Hv & _).
  split; [exact Hp|]. split; [exact Hl|]. exact Hv.
Defined.




(** ** Further properties of train.py *)

Section TrainProperties.
Import Train.
Context `{Torch}.

Lemma flat_map_singleton_fmap {A B} (f : A → B) (l : list A) :
  flat_map (λ x, [f x]) l = f <$> l.
Proof. induction l as [|x l IH]; [done|]. cbn. by rewrite IH. Qed.

Lemma range_nil (start stop : Z) : (stop ≤ start)%Z → range start stop = [].
Proof.
  intros Hle. unfold range, seqZ.
  replace (Z.to_nat (stop - start)) with 0%nat by lia. done.
Qed.

(** *** The values the accumulators hold *)

Lemma train_phase_values bf16 mgn e batches : ∀ (s : state) loc,
  ∃ xs, let r := foldl (train_step bf16 mgn e) (s, loc) batches in
    length xs = length batches ∧
    trace r.1 = trace s ++ flat_map (step_events (training s) bf16 mgn e) xs ∧
    training r.1 = training s ∧
    running_loss r.2 = foldl fadd (running_loss loc) ((λ x, loss x.1) <$> xs) ∧
    train_preds r.2 = train_preds loc ++ all_preds xs ∧
    train_labels r.2 = train_labels loc ++ all_labels xs.
Proof.
  induction batches as [|[b labels] batches IH]; intros s loc.
  - exists []. cbn. by rewrite !app_nil_r.
  - cbn [foldl].
    set (out := forward (zero_grad (model s)) (training s) bf16
                  (input_ids b) (attention_mask b) (token_type_ids b) (Some labels)).
    destruct (IH (train_step bf16 mgn e (s, loc) (b, labels)).1
                 (train_step bf16 mgn e (s, loc) (b, labels)).2)
      as (xs & Hlen & Htr & Hmode & Hloss & Hps & Hls).
    rewrite <- surjective_pairing in Htr, Hmode, Hloss, Hps, Hls.
    exists ((out, labels) :: xs). cbn zeta in *.
    split; [cbn; by rewrite Hlen|].
    rewrite Htr, Hmode, Hloss, Hps, Hls. cbn.
    rewrite <- !app_assoc. done.
Qed.

Lemma val_phase_values bf16 batches : ∀ (s : state) acc,
  ∃ xs, let r := foldl (val_step bf16) (s, acc) batches in
    length xs = length batches ∧
    trace r.1 = trace s ++ flat_map (val_events (training s) bf16) xs ∧
    training r.1 = training s ∧
    r.2.1 = acc.1 ++ all_preds xs ∧
    r.2.2 = acc.2 ++ all_labels xs.
Proof.
  induction batches as [|[b labels] batches IH]; intros s [ps ls].
  - exists []. cbn. by rewrite !app_nil_r.
  - cbn [foldl].
    set (out := forward (model s) (training s) bf16
                  (input_ids b) (attention_mask b) (token_type_ids b) None).
    destruct (IH (val_step bf16 (s, (ps, ls)) (b, labels)).1
                 (val_step bf16 (s, (ps, ls)) (b, labels)).2)
      as (xs & Hlen & Htr & Hmode & Hps & Hls).
    rewrite <- surjective_pairing in Htr, Hmode, Hps, Hls.
    exists ((out, labels) :: xs). cbn zeta in *.
    split; [cbn; by rewrite Hlen|].
    rewrite Htr, Hmode, Hps, Hls. cbn.
    rewrite <- !app_assoc. done.
Qed.

Lemma epoch_body_values flags bf16 mgn tdl vdl (s : state) acc e :
  ∃ r, let st := epoch_body flags bf16 mgn tdl vdl (s, acc) e in
    fits tdl vdl (e, r) ∧
    coherent (e, r) ∧
    st.2 = acc ∧
    trace st.1 = trace s ++ epoch_events flags (training s) bf16 mgn acc (e, r) ∧
    training st.1 = training s.
Proof.
  unfold epoch_body, epoch_tail.
  destruct (train_phase_values bf16 mgn e (tdl e) s (TrainLocals (Fin 0) [] []))
    as (xs & Hxl & Hxt & Hxm & Hloss & Hps & Hls).
  cbn zeta in Hxl, Hxt, Hxm, Hloss, Hps, Hls.
  destruct (foldl (train_step bf16 mgn e) _ (tdl e)) as [s1 loc]. cbn [fst snd] in *.
  set (s2 := emit (LogInfo "Epoch Train Accuracy %.4f" [AFloat acc]) s1).
  destruct (val_phase_values bf16 (vdl e) s2 ([], []))
    as (ys & Hyl & Hyt & Hym & Hvp & Hvl).
  cbn zeta in Hyl, Hyt, Hym, Hvp, Hvl.
  destruct (foldl (val_step bf16) _ (vdl e)) as [s3 [ps ls]]. cbn [fst snd] in *.
  exists (EpochValues xs ys (accuracy_score (train_preds loc) (train_labels loc))
            (accuracy_score ps ls) (running_loss loc)).
  cbn zeta. cbn [fst snd]. split; [done|]. split.
  { unfold coherent. cbn [fst snd ev_loss ev_trainAcc ev_testAcc ev_train ev_val].
    cbn [train_preds train_labels running_loss app] in Hloss, Hps, Hls.
    cbn [app] in Hvp, Hvl. by rewrite Hloss, Hps, Hls, Hvp, Hvl. }
  split; [done|].
  match goal with |- context [checkpoint ?f ?e ?v ?a ?s] =>
    destruct (checkpoint_trace f e v a s) as [Hct Hcm] end.
  rewrite Hct, Hcm. cbn [emit trace training] in *.
  rewrite Hyt, Hym. subst s2. cbn [emit trace training]. rewrite Hxt, Hxm.
  split; [|done].
  unfold epoch_events. cbn [ev_train ev_val ev_trainAcc ev_testAcc ev_loss].
  rewrite <- !app_assoc. cbn [app]. done.
Qed.

Lemma train_loop_values flags bf16 mgn tdl vdl epochs : ∀ (s : state) acc,
  ∃ rs, let st := foldl (epoch_body flags bf16 mgn tdl vdl) (s, acc) epochs in
    rs.*1 = epochs ∧
    Forall (fits tdl vdl) rs ∧
    Forall coherent rs ∧
    trace st.1 = trace s ++ flat_map (epoch_events flags (training s) bf16 mgn acc) rs.
Proof.
  induction epochs as [|e epochs IH]; intros s acc.
  - exists []. cbn. by rewrite app_nil_r.
  - destruct (epoch_body_values flags bf16 mgn tdl vdl s acc e)
      as (r & Hfit & Hco & Hacc & Htr & Hmode).
    cbn zeta in Hfit, Hco, Hacc, Htr, Hmode.
    destruct (epoch_body flags bf16 mgn tdl vdl (s, acc) e) as [s1 acc1] eqn:Hbody.
    cbn [fst snd] in *. subst acc1.
    destruct (IH s1 acc) as (rs & Hrs & Hfits & Hcos & Htr').
    exists ((e, r) :: rs). cbn [foldl]. rewrite Hbody. cbn zeta in *.
    split; [cbn; by rewrite Hrs|]. split; [by constructor|]. split; [by constructor|].
    rewrite Htr', Htr, Hmode. cbn [flat_map]. by rewrite <- app_assoc.
Qed.

(** The whole trace of a run, with values that fit the loaders and are those
    of the accumulators. *)
Lemma train_trace_values tdl vdl (m : net) mode bf16 flags epochs mgn :
  ∃ rs,
    rs.*1 = range 1 (epochs + 1) ∧
    Forall (fits tdl vdl) rs ∧
    Forall coherent rs ∧
    trace (train tdl vdl m mode bf16 flags epochs mgn) =
      [WriterOpen "tensorboard"; ModelTrain] ++
      flat_map (epoch_events flags true bf16 mgn (Fin 0)) rs ++ [WriterClose].
Proof.
  unfold train, train_loop.
  match goal with |- context [foldl ?f (?s, ?a) ?l] =>
    destruct (train_loop_values flags bf16 mgn tdl vdl l s a)
      as (rs & Hrs & Hfits & Hcos & Htr) end.
  cbn zeta in Htr.
  destruct (foldl _ _ _) as [s1 acc1]. cbn [fst] in *.
  exists rs. split; [done|]. split; [done|]. split; [done|].
  cbn [emit trace training]. rewrite Htr. cbn [emit trace training set_training].
  by rewrite <- !app_assoc.
Qed.

(** Observing a run through [φ], for values as [train_trace_values] gives
    them. *)
Lemma observe_run_values {X} (φ : event → option X) (g : Z * epoch_values → list X)
    tdl vdl (m : net) mode bf16 flags epochs mgn :
  (∀ er, fits tdl vdl er → coherent er →
         omap φ (epoch_events flags true bf16 mgn (Fin 0) er) = g er) →
  ∃ rs,
    rs.*1 = range 1 (epochs + 1) ∧
    Forall (fits tdl vdl) rs ∧
    omap φ (trace (train tdl vdl m mode bf16 flags epochs mgn)) =
      omap φ [WriterOpen "tensorboard"; ModelTrain] ++
      flat_map g rs ++ omap φ [WriterClose].
Proof.
  intros Hg.
  destruct (train_trace_values tdl vdl m mode bf16 flags epochs mgn)
    as (rs & Hrs & Hfits & Hcos & Htr).
  exists rs. split; [done|]. split; [done|].
  rewrite Htr, !omap_app, omap_flat_map. do 2 f_equal.
  apply flat_map_Forall_ext.
  rewrite Forall_forall in Hfits, Hcos. apply Forall_forall.
  intros er Her. apply Hg; auto.
Qed.

Lemma flat_map_fmap {A B C} (f : A → B) (g : B → list C) (l : list A) :
  flat_map g (f <$> l) = flat_map (λ x, g (f x)) l.
Proof. induction l as [|x l IH]; [done|]. cbn. by rewrite IH. Qed.

(** Rewrites an observation of the events of one epoch into the observations
    of its parts. *)
Ltac observe_events :=
  unfold epoch_events, step_events, val_events;
  rewrite ?omap_app, ?omap_flat_map; cbn;
  rewrite ?flat_map_nil_const, ?flat_map_singleton_replicate, ?flat_map_replicate.

(** *** Runs without epochs, without a save directory, without validation data *)

(** X1.  With [epochs] zero or negative the loop body never runs: the run
    opens the writer, calls [model.train()] and closes the writer, and leaves
    the parameters as they were. *)
Theorem train_without_epochs tdl vdl (m : net) mode bf16 flags epochs mgn :
  (epochs ≤ 0)%Z →
  let run := train tdl vdl m mode bf16 flags epochs mgn in
  trace run = [WriterOpen "tensorboard"; ModelTrain; WriterClose] ∧
  model run = m ∧
  training run = true.
Proof.
  intros Hle. unfold train, train_loop.
  rewrite range_nil by lia. done.
Qed.

Lemma checkpoint_events_unconfigured flags e v acc :
  truthy (save_model_dir flags) = false → checkpoint_events flags e v acc = [].
Proof.
  intros Hfalse. unfold checkpoint_events.
  destruct (_ && _); [|done].
  destruct (save_model_dir flags) as [dir|]; [|done]. by rewrite Hfalse.
Qed.

(** X2.  When [flags.save_model_dir] is [None] or the empty string, a run
    makes no directory, saves neither tokenizer nor model and logs no "Saved
    model" message, whatever the accuracies are. *)
Theorem no_save_without_directory tdl vdl (m : net) mode bf16 flags epochs mgn :
  truthy (save_model_dir flags) = false →
  omap save_statement (trace (train tdl vdl m mode bf16 flags epochs mgn)) = [].
Proof.
  intros Hfalse.
  rewrite (observe_run save_statement (λ _, [])).
  - cbn. by rewrite flat_map_nil_const.
  - intros [e r] _. observe_events.
    by rewrite checkpoint_events_unconfigured.
Qed.

(** *** What is reported is what was accumulated *)

(** X4.  The loss reported to the logger at the end of an epoch is the sum,
    starting from 0 in every epoch, of the losses written to the writer for
    the batches of that epoch, in their order; there is one such loss per
    training batch. *)
Theorem epoch_loss_is_sum_of_batch_losses tdl vdl (m : net) mode bf16 flags epochs mgn :
  ∃ lss : list (Z * list pyfloat),
    lss.*1 = range 1 (epochs + 1) ∧
    Forall (λ el, length el.2 = length (tdl el.1)) lss ∧
    omap loss_view (trace (train tdl vdl m mode bf16 flags epochs mgn)) =
      flat_map (λ el, ((λ v, BatchLoss v el.1) <$> el.2) ++
                      [EpochLoss el.1 (foldl fadd (Fin 0) el.2)]) lss.
Proof.
  destruct (observe_run_values loss_view
              (λ er, ((λ v, BatchLoss v er.1) <$> ((λ x, loss x.1) <$> ev_train er.2)) ++
                     [EpochLoss er.1 (summed_loss (ev_train er.2))])
              tdl vdl m mode bf16 flags epochs mgn) as (rs & Hrs & Hfits & ->).
  { intros [e r] _ (Hloss & _ & _). cbn [fst snd] in *. observe_events.
    rewrite omap_checkpoint_events by done.
    by rewrite flat_map_singleton_fmap, <- list_fmap_compose, Hloss. }
  exists ((λ er, (er.1, (λ x, loss x.1) <$> ev_train er.2)) <$> rs).
  split; [by rewrite <- list_fmap_compose|]. split.
  - apply Forall_fmap. eapply Forall_impl; [exact Hfits|].
    intros [e r] [Ht _]. cbn in *. by rewrite length_fmap.
  - cbn. by rewrite app_nil_r, flat_map_fmap.
Qed.

(** X5.  The two accuracies written for an epoch are [accuracy_score] of the
    rows accumulated in that epoch alone (the lists start empty in every
    epoch): the training accuracy of the predictions and labels of its
    training batches, the validation accuracy of those of its validation
    batches, with the predictions passed first. *)
Theorem accuracies_are_of_the_rows_of_the_epoch tdl vdl (m : net) mode bf16 flags
    epochs mgn :
  ∃ ds : list (Z * (list (list Z * list Z) * list (list Z * list Z))),
    ds.*1 = range 1 (epochs + 1) ∧
    omap accuracy_view (trace (train tdl vdl m mode bf16 flags epochs mgn)) =
      flat_map (λ d,
        flat_map (λ pl, [Rows "train_preds" pl.1; Rows "train_labels" pl.2]) d.2.1 ++
        flat_map (λ pl, [Rows "test_preds" pl.1; Rows "test_labels" pl.2]) d.2.2 ++
        [Accuracy "Accuracy/train"
           (accuracy_score (flat_map fst d.2.1) (flat_map snd d.2.1));
         Accuracy "Accuracy/test"
           (accuracy_score (flat_map fst d.2.2) (flat_map snd d.2.2))]) ds.
Proof.
  set (rows := λ xs : list (model_output * list Z),
                 (λ x, (predictions x.1, x.2)) <$> xs).
  destruct (observe_run_values accuracy_view
              (λ er,
                 flat_map (λ pl, [Rows "train_preds" pl.1; Rows "train_labels" pl.2])
                          (rows (ev_train er.2)) ++
                 flat_map (λ pl, [Rows "test_preds" pl.1; Rows "test_labels" pl.2])
                          (rows (ev_val er.2)) ++
                 [Accuracy "Accuracy/train"
                    (accuracy_score (flat_map fst (rows (ev_train er.2)))
                                    (flat_map snd (rows (ev_train er.2))));
                  Accuracy "Accuracy/test"
                    (accuracy_score (flat_map fst (rows (ev_val er.2)))
                                    (flat_map snd (rows (ev_val er.2))))])
              tdl vdl m mode bf16 flags epochs mgn) as (rs & Hrs & _ & ->).
  { intros [e r] _ (_ & Htrain & Htest). cbn [fst snd] in *.
    unfold epoch_events, step_events, val_events.
    rewrite !omap_app, !omap_flat_map. cbn.
    rewrite omap_checkpoint_events by done.
    subst rows. cbn beta. rewrite !flat_map_fmap. cbn.
    by rewrite Htrain, Htest. }
  exists ((λ er, (er.1, (rows (ev_train er.2), rows (ev_val er.2)))) <$> rs).
  split; [by rewrite <- list_fmap_compose|].
  cbn. by rewrite app_nil_r, flat_map_fmap.
Qed.

(** *** Clipping before the backward pass *)

(** Two states that differ at most in the calls of [clip_grad_norm_] they
    have recorded. *)
Definition alike (s1 s2 : state) : Prop :=
  model s1 = model s2 ∧
  training s1 = training s2 ∧
  omap unless_clip (trace s1) = omap unless_clip (trace s2).

Lemma foldl_alike {L B} (f1 f2 : state * L → B → state * L) :
  (∀ s1 s2 l x, alike s1 s2 →
     alike (f1 (s1, l) x).1 (f2 (s2, l) x).1 ∧ (f1 (s1, l) x).2 = (f2 (s2, l) x).2) →
  ∀ xs s1 s2 l, alike s1 s2 →
    alike (foldl f1 (s1, l) xs).1 (foldl f2 (s2, l) xs).1 ∧
    (foldl f1 (s1, l) xs).2 = (foldl f2 (s2, l) xs).2.
Proof.
  intros Hstep. induction xs as [|x xs IH]; intros s1 s2 l Hs; [done|].
  cbn [foldl]. destruct (Hstep s1 s2 l x Hs) as [Hs' Hl].
  destruct (f1 (s1, l) x) as [t1 l1], (f2 (s2, l) x) as [t2 l2].
  cbn [fst snd] in *. subst l2. by apply IH.
Qed.

Lemma emit_alike ev (s1 s2 : state) :
  alike s1 s2 → alike (emit ev s1) (emit ev s2).
Proof.
  intros (Hm & Ht & Htr). unfold alike. cbn. by rewrite !omap_app, Htr.
Qed.

Lemma train_step_alike bf16 c1 c2 e (s1 s2 : state) loc item :
  (∀ c (n : net), clip_grad_norm_ c (zero_grad n) = zero_grad n) →
  alike s1 s2 →
  alike (train_step bf16 c1 e (s1, loc) item).1 (train_step bf16 c2 e (s2, loc) item).1 ∧
  (train_step bf16 c1 e (s1, loc) item).2 = (train_step bf16 c2 e (s2, loc) item).2.
Proof.
  intros Hclip (Hm & Ht & Htr). destruct item as [b labels]. unfold alike. cbn.
  rewrite !Hclip, Hm, Ht, !omap_app, Htr. done.
Qed.

Lemma val_step_alike bf16 (s1 s2 : state) acc item :
  alike s1 s2 →
  alike (val_step bf16 (s1, acc) item).1 (val_step bf16 (s2, acc) item).1 ∧
  (val_step bf16 (s1, acc) item).2 = (val_step bf16 (s2, acc) item).2.
Proof.
  intros (Hm & Ht & Htr). destruct item as [b labels], acc as [ps ls].
  unfold alike. cbn. rewrite Hm, Ht, !omap_app, Htr. done.
Qed.

Lemma checkpoint_alike flags e v acc (s1 s2 : state) :
  alike s1 s2 → alike (checkpoint flags e v acc s1) (checkpoint flags e v acc s2).
Proof.
  intros Hs. unfold checkpoint.
  destruct (_ && _); [|done].
  destruct (save_model_dir flags) as [dir|]; [|done].
  destruct (truthy _); [|done].
  unfold save_checkpoint. by repeat apply emit_alike.
Qed.

Lemma epoch_body_alike flags bf16 c1 c2 tdl vdl (s1 s2 : state) acc e :
  (∀ c (n : net), clip_grad_norm_ c (zero_grad n) = zero_grad n) →
  alike s1 s2 →
  alike (epoch_body flags bf16 c1 tdl vdl (s1, acc) e).1
        (epoch_body flags bf16 c2 tdl vdl (s2, acc) e).1 ∧
  (epoch_body flags bf16 c1 tdl vdl (s1, acc) e).2 =
  (epoch_body flags bf16 c2 tdl vdl (s2, acc) e).2.
Proof.
  intros Hclip Hs. unfold epoch_body, epoch_tail.
  destruct (foldl_alike (train_step bf16 c1 e) (train_step bf16 c2 e)
              (λ t1 t2 l x Ht, train_step_alike bf16 c1 c2 e t1 t2 l x Hclip Ht)
              (tdl e) s1 s2 (TrainLocals (Fin 0) [] []) Hs) as [Hs1 Hloc].
  destruct (foldl (train_step bf16 c1 e) _ _) as [t1 loc1],
           (foldl (train_step bf16 c2 e) _ _) as [t2 loc2].
  cbn [fst snd] in *. subst loc2.
  pose proof (emit_alike (LogInfo "Epoch Train Accuracy %.4f" [AFloat acc]) _ _ Hs1)
    as Hs2.
  destruct (foldl_alike (val_step bf16) (val_step bf16)
              (λ t1 t2 l x Ht, val_step_alike bf16 t1 t2 l x Ht)
              (vdl e) _ _ ([], []) Hs2) as [Hs3 Hacc].
  destruct (foldl (val_step bf16) (emit _ t1, _) _) as [u1 [ps1 ls1]],
           (foldl (val_step bf16) (emit _ t2, _) _) as [u2 [ps2 ls2]].
  cbn [fst snd] in *. injection Hacc as -> ->.
  split; [|done]. by apply checkpoint_alike; repeat apply emit_alike.
Qed.

(** X6.  The gradient norm is clipped after the gradients have been cleared
    and before the backward pass computes the new ones.  So whenever clipping
    cleared gradients changes nothing (as it does in torch), the value of
    [max_grad_norm] has no effect on a run: two runs that differ in it alone
    end with the same parameters and have made the same calls, logged,
    written and saved the same, apart from the argument of the clipping calls
    themselves. *)
Theorem max_grad_norm_has_no_effect tdl vdl (m : net) mode bf16 flags epochs c1 c2 :
  (∀ c (n : net), clip_grad_norm_ c (zero_grad n) = zero_grad n) →
  let run1 := train tdl vdl m mode bf16 flags epochs c1 in
  let run2 := train tdl vdl m mode bf16 flags epochs c2 in
  model run1 = model run2 ∧
  omap unless_clip (trace run1) = omap unless_clip (trace run2).
Proof.
  intros Hclip. cbn zeta. unfold train, train_loop.
  match goal with |- context [foldl _ (?s, ?a) ?l] =>
    destruct (foldl_alike (epoch_body flags bf16 c1 tdl vdl)
                (epoch_body flags bf16 c2 tdl vdl)
                (λ t1 t2 a' x Ht,
                   epoch_body_alike flags bf16 c1 c2 tdl vdl t1 t2 a' x Hclip Ht)
                l s s a) as [(Hm & _ & Htr) _]; [done|] end.
  destruct (foldl (epoch_body flags bf16 c1 tdl vdl) _ _) as [t1 a1],
           (foldl (epoch_body flags bf16 c2 tdl vdl) _ _) as [t2 a2].
  cbn [fst snd emit model trace] in *. split; [done|].
  by rewrite !omap_app, Htr.
Qed.

End TrainProperties.

(** ** Further properties of run_quantize_inc.py *)

Section QuantizeProperties.
Import Quantize.
Context `{Collaborators}.

(** *** The evaluation function *)

(** X7.  The labels [evaluate_accuracy] accumulates are the labels of the
    samples of the dataset, each once, in the order the loader draws the
    samples: batching drops and repeats nothing, for any batch size and
    whatever the model returns. *)
Theorem labels_are_accumulated_in_drawn_order (test_loader : DataLoader)
    (model_q : Model) :
  (evaluate_loop test_loader model_q).2 =
    s_label <$> (if dl_shuffle test_loader
                 then sampler_order (dl_dataset test_loader)
                 else dl_dataset test_loader).
Proof.
  unfold evaluate_loop, iterate.
  by rewrite evaluate_fold_labels, batch_sampler_concat.
Qed.

Lemma agreeing_rows_sym (a b : list Z) :
  length (List.filter (λ p : Z * Z, Z.eqb p.1 p.2) (zip a b)) =
  length (List.filter (λ p : Z * Z, Z.eqb p.1 p.2) (zip b a)).
Proof.
  revert b. induction a as [|x a IH]; intros [|y b]; [done..|].
  cbn. rewrite (Z.eqb_sym x y). destruct (y =? x)%Z; cbn; by rewrite IH.
Qed.

Lemma accuracy_score_sym (a b : list Z) :
  length a = length b → accuracy_score a b = accuracy_score b a.
Proof.
  intros Hlen. unfold accuracy_score.
  destruct a as [|x a], b as [|y b]; [done..|].
  by rewrite agreeing_rows_sym, Hlen.
Qed.

(** X8.  [evaluate_accuracy] hands the predictions to [accuracy_score] in the
    place of [y_true] and the labels in the place of [y_pred].  For a model
    that returns one row of logits per input row this changes nothing: the
    value is the one the documented order of the arguments gives. *)
Theorem evaluate_accuracy_argument_order (test_loader : DataLoader) (model_q : Model) :
  (∀ ids mask tts, length (logits (model_call model_q ids mask tts)) = length ids) →
  evaluate_accuracy test_loader model_q =
    accuracy_score (evaluate_loop test_loader model_q).2
                   (evaluate_loop test_loader model_q).1.
Proof.
  intros Hrows. unfold evaluate_accuracy.
  pose proof (evaluate_fold_lengths model_q
                (batch_sampler (Z.to_nat (dl_batch_size test_loader)) []
                   (if dl_shuffle test_loader
                    then sampler_order (dl_dataset test_loader)
                    else dl_dataset test_loader)) Hrows ([], [])) as [Hp Hl].
  fold (iterate sampler_order test_loader) in Hp, Hl.
  fold (evaluate_loop test_loader model_q) in Hp, Hl.
  destruct (evaluate_loop test_loader model_q) as [ps ls]. cbn [fst snd] in *.
  apply accuracy_score_sym. congruence.
Qed.

(** *** The copy of the model files *)

(** X10.  Between two separate directories whose files can stand in one
    tree, copying again changes nothing: after a copy that returned normally,
    a second copy returns normally and leaves the world as the first left
    it. *)
Theorem copy_is_idempotent (flags : Flags) (w w1 : world) (files out : directory) :
  fs w !! saved_model_dir flags = Some files →
  fs w !! output_dir flags = Some out →
  separate (saved_model_dir flags) (output_dir flags) = true →
  compatible (filter (λ kv, kept (ignore_patterns "*.bin*") kv.1 = true) files)
             out = true →
  copy_model_files flags w = (Ok (), w1) →
  copy_model_files flags w1 = (Ok (), w1).
Proof.
  intros Hsrc Hout Hsep%separate_ne _.
  unfold copy_model_files, bind, entry_exists, ret, copytree, path_has_entry.
  rewrite Hout.
  destruct (has_entry "best_model.pt" out) eqn:Hentry;
    [|intros [= <-]; by rewrite Hout, Hentry].
  rewrite Hsrc, decide_False by done.
  intros [= <-]. cbn [fs workspace log]. rewrite Hout. cbn [default].
  rewrite lookup_insert_eq, (has_entry_union _ _ _ Hentry).
  cbn [fs workspace log].
  rewrite lookup_insert_ne, Hsrc, lookup_insert_eq, decide_False by done.
  cbn [default].
  unfold id. by rewrite insert_insert_eq, (assoc (∪)), (idemp (∪)).
Qed.


(** *** What changes, and when *)

(** X12.  [main] changes the file system or the workspace setting only in a
    run in which the saved model directory exists and the tokenizer, the
    dataset, the loader and the model have all been loaded: a run that ends
    before that, normally or with an exception, leaves both as they were. *)
Theorem main_changes_nothing_before_the_fit flags (w : world) :
  (fs (main flags w).2 = fs w ∧ workspace (main flags w).2 = workspace w) ∨
  (is_Some (fs w !! saved_model_dir flags) ∧
   ∃ tok test_dataset test_loader model,
     AutoTokenizer_from_pretrained (fs w) (saved_model_dir flags) = Ok tok ∧
     read_and_preprocess_data (fs w) (input_file flags) tok (seq_length flags)
       = Ok test_dataset ∧
     new_DataLoader test_dataset (batch_size flags) true = Ok test_loader ∧
     AutoModel_from_pretrained (fs w) (saved_model_dir flags) = Ok model).
Proof.
  destruct (main flags w) as [res w'] eqn:Hmain. cbn [snd]. revert Hmain.
  unfold main, quantize_model, bind, dir_exists, reading, writing,
    try_FileNotFoundError, set_workspace.
  destruct (bool_decide (is_Some (fs w !! saved_model_dir flags))) eqn:Hdir;
    cbn [negb]; [|intros [= <- <-]; by left].
  apply bool_decide_eq_true in Hdir.
  destruct (AutoTokenizer_from_pretrained _ _) as [tok|e] eqn:Htok;
    [|intros [= <- <-]; by left].
  destruct (read_and_preprocess_data _ _ _ _) as [ds|e] eqn:Hdata;
    [|destruct (is_FileNotFoundError e); intros [= <- <-]; by left].
  destruct (new_DataLoader _ _ _) as [tl|e] eqn:Hloader;
    [|destruct (is_FileNotFoundError e); intros [= <- <-]; by left].
  destruct (AutoModel_from_pretrained _ _) as [model|e] eqn:Hmodel;
    [|intros [= <- <-]; by left].
  intros _. right. split; [done|]. by exists tok, ds, tl, model.
Qed.

End QuantizeProperties.

Section PatternAndDataset.
Import Quantize.

(** *** The pattern of the copy *)

Lemma glob_star pat name :
  glob ("*"%char :: pat) name = true ↔ ∃ a b, name = a ++ b ∧ glob pat b = true.
Proof.
  induction name as [|x name IH].
  - change (glob ("*"%char :: pat) []) with (glob pat [] || false).
    rewrite orb_false_r. split.
    + intros Hg. by exists [], [].
    + intros (a & b & Heq & Hg). symmetry in Heq.
      apply app_eq_nil in Heq as [-> ->]. done.
  - change (glob ("*"%char :: pat) (x :: name))
      with (glob pat (x :: name) || glob ("*"%char :: pat) name).
    rewrite orb_true_iff, IH. split.
    + intros [Hg|(a & b & -> & Hg)].
      * by exists [], (x :: name).
      * by exists (x :: a), b.
    + intros (a & b & Heq & Hg). destruct a as [|y a].
      * left. cbn in Heq. by subst b.
      * right. injection Heq as -> ->. by exists a, b.
Qed.

Lemma glob_literal (c : Ascii.ascii) pat name :
  c ≠ "*"%char → c ≠ "?"%char →
  glob (c :: pat) name = true ↔ ∃ rest, name = c :: rest ∧ glob pat rest = true.
Proof.
  intros Hstar Hany. cbn [glob].
  rewrite (proj2 (Ascii.eqb_neq c "*") Hstar), (proj2 (Ascii.eqb_neq c "?") Hany).
  destruct name as [|d rest].
  - split; [done|]. by intros (? & ? & _).
  - rewrite andb_true_iff, Ascii.eqb_eq. split.
    + intros [-> Hg]. by exists rest.
    + intros (r & [= -> ->] & Hg). done.
Qed.

Lemma list_ascii_of_string_app (a b : string) :
  String.list_ascii_of_string (a +:+ b) =
    String.list_ascii_of_string a ++ String.list_ascii_of_string b.
Proof.
  induction a as [|c a IH]; [done|].
  change (String c a +:+ b) with (String c (a +:+ b)).
  cbn [String.list_ascii_of_string app]. by rewrite IH.
Qed.

(** X13.  The pattern "*.bin*" of the copy matches exactly the names that
    contain ".bin" somewhere: "pytorch_model.bin" and
    "pytorch_model.bin.index.json" are left out of the copy, and so is any
    other file or directory with ".bin" in its name, while weights under a
    name without it (such as "model.safetensors") are copied. *)
Theorem pattern_matches_names_containing_bin (name : string) :
  ignore_patterns "*.bin*" name = true ↔
  ∃ pre post, name = pre +:+ ".bin" +:+ post.
Proof.
  unfold ignore_patterns, fnmatch.
  change (String.list_ascii_of_string "*.bin*")
    with ("*"%char :: "."%char :: "b"%char :: "i"%char :: "n"%char :: ["*"%char]).
  rewrite glob_star. split.
  - intros (a & b & Hname & Hg).
    apply glob_literal in Hg as (b1 & -> & Hg); [|done..].
    apply glob_literal in Hg as (b2 & -> & Hg); [|done..].
    apply glob_literal in Hg as (b3 & -> & Hg); [|done..].
    apply glob_literal in Hg as (post & -> & _); [|done..].
    exists (String.string_of_list_ascii a), (String.string_of_list_ascii post).
    rewrite <- (String.string_of_list_ascii_of_string name), Hname.
    rewrite <- (String.string_of_list_ascii_of_string
                  (_ +:+ ".bin" +:+ _)).
    f_equal. rewrite !list_ascii_of_string_app.
    by rewrite !String.list_ascii_of_string_of_list_ascii.
  - intros (pre & post & ->).
    exists (String.list_ascii_of_string pre),
           (String.list_ascii_of_string (".bin" +:+ post)).
    split; [by rewrite list_ascii_of_string_app|].
    rewrite list_ascii_of_string_app. cbn [String.list_ascii_of_string app].
    do 4 (apply glob_literal; [done|done|]; eexists; split; [reflexivity|]).
    apply glob_star. exists (String.list_ascii_of_string post), [].
    by rewrite app_nil_r.
Qed.

(** *** INCDataset *)

(** X14.  [INCDataset.__getitem__] returns, for an item that holds the four
    keys "input_ids", "attention_mask", "labels" and "class_label", a dict of
    the first two alone (a "token_type_ids" of the item is dropped) and the
    pair of the other two.  An exception of the wrapped dataset propagates,
    and a missing key raises a KeyError for the first key missing in that
    order. *)
Theorem INCDataset_getitem_spec {V} (self : INCDataset V) (index : Z) :
  (∀ e, py_getitem (dloader self) index = Raise e →
        INCDataset_getitem self index = Raise e) ∧
  (∀ item, py_getitem (dloader self) index = Ok item →
     (∀ ids mask labels class_label,
        item !! "input_ids" = Some ids →
        item !! "attention_mask" = Some mask →
        item !! "labels" = Some labels →
        item !! "class_label" = Some class_label →
        ∃ x_vals,
          INCDataset_getitem self index = Ok (x_vals, (labels, class_label)) ∧
          x_vals !! "input_ids" = Some ids ∧
          x_vals !! "attention_mask" = Some mask ∧
          dom x_vals = ({["input_ids"; "attention_mask"]} : gset string) ∧
          x_vals !! "token_type_ids" = None) ∧
     (item !! "input_ids" = None →
      INCDataset_getitem self index = Raise (Exception "KeyError" "input_ids")) ∧
     (is_Some (item !! "input_ids") → item !! "attention_mask" = None →
      INCDataset_getitem self index = Raise (Exception "KeyError" "attention_mask")) ∧
     (is_Some (item !! "input_ids") → is_Some (item !! "attention_mask") →
      item !! "labels" = None →
      INCDataset_getitem self index = Raise (Exception "KeyError" "labels")) ∧
     (is_Some (item !! "input_ids") → is_Some (item !! "attention_mask") →
      is_Some (item !! "labels") → item !! "class_label" = None →
      INCDataset_getitem self index = Raise (Exception "KeyError" "class_label"))).
Proof.
  unfold INCDataset_getitem, result_bind, dict_getitem. split.
  - by intros e ->.
  - intros item ->. split; [|split; [|split; [|split]]].
    + intros ids mask labels cl -> -> -> ->. eexists. split; [done|].
      split; [by rewrite lookup_insert_eq|].
      split; [by rewrite lookup_insert_ne, lookup_insert_eq|].
      split; [|done].
      rewrite !dom_insert_L, dom_empty_L. set_solver.
    + by intros ->.
    + by intros [? ->] ->.
    + by intros [? ->] [? ->] ->.
    + by intros [? ->] [? ->] [? ->] ->.
Qed.

End PatternAndDataset.

(** *** Concrete instances of the further properties *)

(** X1, witness: a run asked for no epoch. *)
Lemma train_without_epochs_witness :
  let run := Train.train (H := toy_torch) two_batches one_batch () false false
               {| Train.save_model_dir := Some "ckpt" |} 0 (Fin 10) in
  Train.trace run =
    [Train.WriterOpen "tensorboard"; Train.ModelTrain; Train.WriterClose] ∧
  Train.model run = () ∧
  Train.training run = true.
Proof.
  apply (train_without_epochs (H := toy_torch) two_batches one_batch () false false
           {| Train.save_model_dir := Some "ckpt" |} 0 (Fin 10)).
  reflexivity.
Defined.

(** X2, witness: the validation accuracy is 9/10 and the save directory is the
    empty string. *)
Lemma no_save_without_directory_witness :
  omap Train.save_statement
    (Train.trace (Train.train (H := toy_torch) one_batch nine_of_ten () false false
                    {| Train.save_model_dir := Some EmptyString |} 2 (Fin 10))) = [].
Proof.
  apply (no_save_without_directory (H := toy_torch) one_batch nine_of_ten () false
           false {| Train.save_model_dir := Some EmptyString |} 2 (Fin 10)).
  reflexivity.
Defined.


(** X6, witness: the toy framework, whose clipping changes nothing at all. *)
Lemma max_grad_norm_has_no_effect_witness :
  let run1 := Train.train (H := toy_torch) two_batches nine_of_ten () false false
                {| Train.save_model_dir := Some "ckpt" |} 2 (Fin 10) in
  let run2 := Train.train (H := toy_torch) two_batches nine_of_ten () false false
                {| Train.save_model_dir := Some "ckpt" |} 2 (Fin (1 # 100)) in
  Train.model run1 = Train.model run2 ∧
  omap Train.unless_clip (Train.trace run1) = omap Train.unless_clip (Train.trace run2).
Proof.
  apply (max_grad_norm_has_no_effect (H := toy_torch) two_batches nine_of_ten ()
           false false {| Train.save_model_dir := Some "ckpt" |} 2
           (Fin 10) (Fin (1 # 100))).
  reflexivity.
Defined.

(** X8, witness: the toy model on three samples in batches of two. *)
Lemma evaluate_accuracy_argument_order_witness :
  let test_loader :=
    Quantize.MkDataLoader [toy_sample 1 1; toy_sample 0 0; toy_sample 1 0] 2 true in
  Quantize.evaluate_accuracy (H := toy_collaborators) test_loader () =
    accuracy_score (Quantize.evaluate_loop (H := toy_collaborators) test_loader ()).2
                   (Quantize.evaluate_loop (H := toy_collaborators) test_loader ()).1.
Proof.
  apply (evaluate_accuracy_argument_order (H := toy_collaborators)
           (Quantize.MkDataLoader [toy_sample 1 1; toy_sample 0 0; toy_sample 1 0] 2 true)
           ()).
  intros ids mask tts. apply length_fmap.
Defined.

(** X10, witness: the copy into the output directory of the toy run, twice. *)
Lemma copy_is_idempotent_witness :
  let w := Quantize.World
             (<["out" := {[ ["best_model.pt"] := "int8 weights" ]}]> toy_files)
             (Some "out") [] in
  let w1 := (Quantize.copy_model_files (toy_flags "data.csv") w).2 in
  Quantize.copy_model_files (toy_flags "data.csv") w1 = (Quantize.Ok (), w1).
Proof.
  apply (copy_is_idempotent (toy_flags "data.csv")
           (Quantize.World
              (<["out" := {[ ["best_model.pt"] := "int8 weights" ]}]> toy_files)
              (Some "out") [])
           _
           {[ ["config.json"] := "config";
              ["pytorch_model.bin"] := "float weights";
              ["vocab.txt"] := "vocabulary" ]}
           {[ ["best_model.pt"] := "int8 weights" ]});
    reflexivity.
Defined.

